(** * Movie review client (src/src/App.jsx): submission and listing workflow

    A shallow embedding of the event handlers of [App], [loadReviews],
    [onChange] and [onSubmit], together with the pieces of JavaScript they
    rely on (string trimming and splitting, conversion of a form field to a
    number, truthiness, property lookup on a parsed JSON value), followed
    by the properties of the workflow.

    Conventions of the embedding:
    - a handler is a function of the state of [App] and of a log of
      requests; the setters of [useState] are applied in program order, one
      handler at a time (the component runs on a single event loop and
      overlapping handlers are not modelled);
    - [fetch] is a function of the request, given by the environment: it
      either rejects with an exception or resolves to a response;
    - [e.preventDefault()] has no effect on the state and is left out;
    - the rendering functions ([StarRating], [ReviewCard] and the markup
      of [App]) are not part of the workflow and are not embedded. *)

From Stdlib Require Import ZArith NArith List Bool Lia String Ascii.
From Stdlib Require Import DecimalString.
From Stdlib Require DecimalN DecimalPos.
From Stdlib Require Import Floats.SpecFloat.
Import ListNotations.
Open Scope list_scope.

(* ================================================================== *)
(** * JavaScript strings *)
(* ================================================================== *)

Module JsString.

(** A JavaScript string is a sequence of UTF-16 code units. *)
Definition code_unit := N.
Definition jsstring := list code_unit.

(** String literals of the source are ASCII. *)
Definition lit (s : string) : jsstring :=
  map N_of_ascii (list_ascii_of_string s).

Definition eqb (a b : jsstring) : bool :=
  if list_eq_dec N.eq_dec a b then true else false.

(** [WhiteSpace] and [LineTerminator] of ECMAScript: the code units that
    [String.prototype.trim] strips and that [StringToNumber] skips. *)
Definition is_white_space (c : code_unit) : bool :=
  ((c =? 0x0009) || (c =? 0x000A) || (c =? 0x000B) || (c =? 0x000C)
   || (c =? 0x000D) || (c =? 0x0020) || (c =? 0x00A0) || (c =? 0x1680)
   || ((0x2000 <=? c) && (c <=? 0x200A))
   || (c =? 0x2028) || (c =? 0x2029) || (c =? 0x202F) || (c =? 0x205F)
   || (c =? 0x3000) || (c =? 0xFEFF))%N.

Fixpoint trimStart (s : jsstring) : jsstring :=
  match s with
  | [] => []
  | c :: r => if is_white_space c then trimStart r else s
  end.

Definition trimEnd (s : jsstring) : jsstring :=
  rev (trimStart (rev s)).

(** [s.trim()] *)
Definition trim (s : jsstring) : jsstring := trimEnd (trimStart s).

(** [s.split(sep)] for a separator of one code unit: the pieces between
    successive separators, so [n] separators give [n + 1] pieces. *)
Fixpoint split (sep : code_unit) (s : jsstring) : list jsstring :=
  match s with
  | [] => [[]]
  | c :: r =>
      if (c =? sep)%N then [] :: split sep r
      else match split sep r with
           | p :: ps => (c :: p) :: ps
           | [] => [[c]]
           end
  end.

(** [pieces.join(sep)] *)
Fixpoint join (sep : jsstring) (pieces : list jsstring) : jsstring :=
  match pieces with
  | [] => []
  | [p] => p
  | p :: ps => p ++ sep ++ join sep ps
  end.

(** A string is truthy when it is not empty. *)
Definition truthy (s : jsstring) : bool :=
  match s with [] => false | _ :: _ => true end.

Definition comma : code_unit := 44%N.

End JsString.

Export JsString.

(* ================================================================== *)
(** * JavaScript numbers *)
(* ================================================================== *)

Module JsNumber.

(** Number values are IEEE 754 binary64 floats. *)
Definition number := spec_float.
Definition prec : Z := 53.
Definition emax : Z := 1024.

Definition NaN : number := S754_nan.
Definition pos_zero : number := S754_zero false.
Definition neg_zero : number := S754_zero true.

(** The Number value of the mathematical value [p / q], [q > 0], with
    sign [neg]: rounded to nearest, ties to even. *)
Definition of_ratio (neg : bool) (p q : positive) : number :=
  SFdiv prec emax (S754_finite neg p 0) (S754_finite false q 0).

(** The Number value of an integer. *)
Definition of_Z (z : Z) : number :=
  match z with
  | Z0 => pos_zero
  | Zpos p => of_ratio false p 1
  | Zneg p => of_ratio true p 1
  end.

(** [Number.isNaN(x)] *)
Definition isNaN (x : number) : bool :=
  match x with S754_nan => true | _ => false end.

(** [x < y] and [x > y] on Number values: false when either is NaN. *)
Definition lt (x y : number) : bool := SFltb x y.
Definition gt (x y : number) : bool := SFltb y x.

(** A Number is falsy when it is [+0], [-0] or [NaN]. *)
Definition truthy (x : number) : bool :=
  match x with
  | S754_zero _ | S754_nan => false
  | _ => true
  end.

(** ** [StringToNumber] *)

Definition digit_of (base : N) (c : code_unit) : option N :=
  let d :=
    if ((48 <=? c) && (c <=? 57))%N then Some (c - 48)%N
    else if ((97 <=? c) && (c <=? 102))%N then Some (c - 87)%N
    else if ((65 <=? c) && (c <=? 70))%N then Some (c - 55)%N
    else None in
  match d with
  | Some v => if (v <? base)%N then Some v else None
  | None => None
  end.

(** The longest prefix of digits of [s] in [base], most significant
    first, and what follows it. *)
Fixpoint digits (base : N) (s : jsstring) : list N * jsstring :=
  match s with
  | [] => ([], [])
  | c :: r =>
      match digit_of base c with
      | Some d => let (ds, rest) := digits base r in (d :: ds, rest)
      | None => ([], s)
      end
  end.

Definition digits_value (base : N) (ds : list N) : N :=
  fold_left (fun acc d => acc * base + d)%N ds 0%N.

(** The Number value of [m * 10 ^ e], [m] a natural number. A literal
    whose value is zero gives the zero of its sign. *)
Definition of_decimal (neg : bool) (m : N) (e : Z) : number :=
  match m with
  | N0 => S754_zero neg
  | Npos p =>
      match e with
      | Zneg k => of_ratio neg p (Pos.pow 10 k)
      | Z0 => of_ratio neg p 1
      | Zpos k => of_ratio neg (p * Pos.pow 10 k) 1
      end
  end.

(** [ExponentPart opt]: [e] or [E], an optional sign, and digits. [None]
    when an exponent indicator is not followed by a well-formed integer. *)
Definition exponent_part (s : jsstring) : option (Z * jsstring) :=
  match s with
  | c :: r =>
      if ((c =? 101) || (c =? 69))%N then
        let (neg, r') :=
          match r with
          | sg :: r1 =>
              if (sg =? 43)%N then (false, r1)
              else if (sg =? 45)%N then (true, r1)
              else (false, r)
          | [] => (false, r)
          end in
        match digits 10 r' with
        | ([], _) => None
        | (ds, rest) =>
            let v := Z.of_N (digits_value 10 ds) in
            Some (if neg then (- v)%Z else v, rest)
        end
      else Some (0%Z, s)
  | [] => Some (0%Z, s)
  end.

(** [StrUnsignedDecimalLiteral], the whole of [s], with sign [neg]. *)
Definition unsigned_decimal (neg : bool) (s : jsstring) : number :=
  if JsString.eqb s (lit "Infinity") then S754_infinity neg
  else
    let (ip, r1) := digits 10 s in
    let (fp, r2) :=
      match r1 with
      | c :: r => if (c =? 46)%N then digits 10 r else ([], r1)
      | [] => ([], r1)
      end in
    match ip, fp with
    | [], [] => NaN
    | _, _ =>
        match exponent_part r2 with
        | Some (ex, []) =>
            of_decimal neg (digits_value 10 (ip ++ fp))
                       (ex - Z.of_nat (List.length fp))
        | _ => NaN
        end
    end.

(** [NonDecimalIntegerLiteral]: [0x], [0o] or [0b] and digits. *)
Definition non_decimal (s : jsstring) : option number :=
  match s with
  | z :: p :: r =>
      if (z =? 48)%N then
        let base :=
          if ((p =? 120) || (p =? 88))%N then Some 16%N
          else if ((p =? 111) || (p =? 79))%N then Some 8%N
          else if ((p =? 98) || (p =? 66))%N then Some 2%N
          else None in
        match base with
        | Some b =>
            match digits b r with
            | (d :: ds, []) =>
                Some (of_Z (Z.of_N (digits_value b (d :: ds))))
            | _ => Some NaN
            end
        | None => None
        end
      else None
  | _ => None
  end.

(** [StringToNumber(s)]: surrounding white space is skipped, the empty
    literal is [+0], a string that is not a [StringNumericLiteral] is
    [NaN]. A decimal literal is rounded to the nearest double whatever
    the number of its digits, as the engines in use do. *)
Definition StringToNumber (s : jsstring) : number :=
  match trim s with
  | [] => pos_zero
  | (c :: r) as t =>
      match non_decimal t with
      | Some v => v
      | None =>
          if (c =? 43)%N then unsigned_decimal false r
          else if (c =? 45)%N then unsigned_decimal true r
          else unsigned_decimal false t
      end
  end.

End JsNumber.

Export JsNumber.

(* ================================================================== *)
(** * Parsed JSON values and what the handlers do with them *)
(* ================================================================== *)

Module Json.

#[local] Set Warnings "-register-all".

(** The value [res.json()] resolves to. *)
Inductive json : Type :=
| JNull
| JBool (b : bool)
| JNumber (n : number)
| JString (s : jsstring)
| JArray (elements : list json)
| JObject (properties : list (jsstring * json)).

(** What the language leaves to the engine, or what is too long to
    spell out here, taken as parameters: both are reached only on a
    refused POST, with a body that is [null] or whose [detail] holds a
    number. *)
Record Engine := {
  (** [Number::toString(n)], radix 10 *)
  NumberToString : number -> jsstring;
  (** the message of the [TypeError] thrown by [null.detail] *)
  null_property_message : jsstring
}.

(** Own property [key] of a parsed object; a later duplicate of a key
    in the JSON text replaces an earlier one. *)
Fixpoint lookup (key : jsstring) (props : list (jsstring * json))
  : option json :=
  match props with
  | [] => None
  | (k, v) :: rest =>
      match lookup key rest with
      | Some v' => Some v'
      | None => if JsString.eqb k key then Some v else None
      end
  end.

(** [ToBoolean]; [None] is [undefined]. *)
Definition truthy (v : option json) : bool :=
  match v with
  | None => false
  | Some JNull => false
  | Some (JBool b) => b
  | Some (JNumber n) => JsNumber.truthy n
  | Some (JString s) => JsString.truthy s
  | Some (JArray _) | Some (JObject _) => true
  end.

Section ToString.
Variable engine : Engine.

(** [ToString(v)]: an array joins its elements with commas, [null]
    elements giving the empty string; an object is
    ["[object Object]"]. *)
Fixpoint ToString (v : json) : jsstring :=
  match v with
  | JNull => lit "null"
  | JBool true => lit "true"
  | JBool false => lit "false"
  | JNumber n => NumberToString engine n
  | JString s => s
  | JArray l =>
      join [comma]
           (map (fun x => match x with
                          | JNull => []
                          | _ => ToString x
                          end) l)
  | JObject _ => lit "[object Object]"
  end.
End ToString.

End Json.

Export Json.

(* ================================================================== *)
(** * The state of [App] and the backend *)
(* ================================================================== *)

(** A form field holds the number it was initialised with or the string
    the input element reported. Only [rating] starts as a number. *)
Inductive FieldValue :=
| FNumber (n : number)
| FString (s : jsstring).

(** [Number(v)] *)
Definition Number (v : FieldValue) : number :=
  match v with
  | FNumber n => n
  | FString s => StringToNumber s
  end.

Record FormState := {
  title : jsstring;
  rating : FieldValue;
  review : jsstring;
  watched_on : jsstring;
  poster_url : jsstring;
  tags : jsstring
}.

Module Payload.
Record t := {
  title : jsstring;
  review : jsstring;
  rating : number;
  watched_on : option jsstring;
  poster_url : option jsstring;
  tags : option (list jsstring)
}.
End Payload.

(** A thrown [Error]; the handlers only read its [message]. *)
Record Exn := Error { message : jsstring }.

(** A request handed to [fetch]. The body of the POST is
    [JSON.stringify(payload)]; it is kept as the payload it encodes. *)
Inductive Request :=
| Get (url : jsstring)
| Post (url : jsstring) (headers : list (jsstring * jsstring))
       (body : Payload.t).

(** A response: its status and what [res.json()] settles to. *)
Record Response := {
  status : N;
  res_json : Exn + json
}.

(** [res.ok] *)
Definition ok (res : Response) : bool :=
  ((200 <=? status res) && (status res <=? 299))%N.

Inductive FetchResult :=
| Rejected (e : Exn)
| Resolved (res : Response).

(** What surrounds the component: the build-time setting and the
    backend reached through [fetch]. *)
Record Env := {
  VITE_BACKEND_URL : option jsstring;
  fetch : Request -> FetchResult
}.

Record State := {
  form : FormState;
  submitting : bool;
  error : jsstring;
  success : jsstring;
  items : json;
  loading : bool
}.

(** The initial value of [form], lines 43-50, which is also what a
    successful submit puts back, line 121. *)
Definition default_form : FormState :=
  {| title := []; rating := FNumber (of_Z 7); review := [];
     watched_on := []; poster_url := []; tags := [] |}.

(** The state [App] is mounted with, lines 43-55. *)
Definition initial_state : State :=
  {| form := default_form; submitting := false; error := [];
     success := []; items := JArray []; loading := true |}.

(* ================================================================== *)
(** * Handlers as state-passing computations that may throw *)
(* ================================================================== *)

Inductive Completion (A : Type) :=
| Normal (a : A)
| Throw (e : Exn).
Arguments Normal {A} a.
Arguments Throw {A} e.

(** A computation reads and writes the state of [App] and appends the
    requests it issues to a log. *)
Definition Eff (A : Type) : Type :=
  State -> list Request -> Completion A * State * list Request.

Definition ret {A} (a : A) : Eff A := fun st log => (Normal a, st, log).

Definition bind {A B} (m : Eff A) (k : A -> Eff B) : Eff B :=
  fun st log =>
    match m st log with
    | (Normal a, st', log') => k a st' log'
    | (Throw e, st', log') => (Throw e, st', log')
    end.

Definition throw {A} (e : Exn) : Eff A := fun st log => (Throw e, st, log).

Notation "x <- m ;; k" := (bind m (fun x => k))
  (at level 61, m at next level, right associativity).
Notation "m ;; k" := (bind m (fun _ => k))
  (at level 61, right associativity).

(** [promise.catch(handler)] *)
Definition catch {A} (m : Eff A) (handler : Exn -> Eff A) : Eff A :=
  fun st log =>
    match m st log with
    | (Normal a, st', log') => (Normal a, st', log')
    | (Throw e, st', log') => handler e st' log'
    end.

(** [try { body } catch (e) { handler } finally { final }] *)
Definition try_catch_finally (body : Eff unit) (handler : Exn -> Eff unit)
           (final : Eff unit) : Eff unit :=
  fun st log =>
    match catch body handler st log with
    | (c, st', log') =>
        match final st' log' with
        | (Normal _, st'', log'') => (c, st'', log'')
        | (Throw e, st'', log'') => (Throw e, st'', log'')
        end
    end.

(** [if (cond) { throw e }] *)
Definition throw_if (cond : bool) (e : Exn) : Eff unit :=
  if cond then throw e else ret tt.

(** The state setters of [useState]. *)
Definition setForm (f : FormState -> FormState) : Eff unit :=
  fun st log =>
    (Normal tt,
     {| form := f (form st); submitting := submitting st; error := error st;
        success := success st; items := items st; loading := loading st |},
     log).

Definition setSubmitting (b : bool) : Eff unit :=
  fun st log =>
    (Normal tt,
     {| form := form st; submitting := b; error := error st;
        success := success st; items := items st; loading := loading st |},
     log).

Definition setError (s : jsstring) : Eff unit :=
  fun st log =>
    (Normal tt,
     {| form := form st; submitting := submitting st; error := s;
        success := success st; items := items st; loading := loading st |},
     log).

Definition setSuccess (s : jsstring) : Eff unit :=
  fun st log =>
    (Normal tt,
     {| form := form st; submitting := submitting st; error := error st;
        success := s; items := items st; loading := loading st |},
     log).

Definition setItems (v : json) : Eff unit :=
  fun st log =>
    (Normal tt,
     {| form := form st; submitting := submitting st; error := error st;
        success := success st; items := v; loading := loading st |},
     log).

Definition setLoading (b : bool) : Eff unit :=
  fun st log =>
    (Normal tt,
     {| form := form st; submitting := submitting st; error := error st;
        success := success st; items := items st; loading := b |},
     log).

(* ================================================================== *)
(** * [loadReviews], [onChange] and [onSubmit] *)
(* ================================================================== *)

(** [`${n}`] for a status code. *)
Definition status_to_string (n : N) : jsstring :=
  lit (DecimalString.NilZero.string_of_uint (N.to_uint n)).

(** What [onSubmit] sends as [tags]. *)
Definition normalize_tags (raw : jsstring) : option (list jsstring) :=
  if JsString.truthy raw
  then Some (filter JsString.truthy (map trim (split comma raw)))
  else None.

(** [s || null] *)
Definition or_null (s : jsstring) : option jsstring :=
  if JsString.truthy s then Some s else None.

(** The object literal [payload] of [onSubmit], lines 89-101. *)
Definition make_payload (form : FormState) : Payload.t :=
  {| Payload.title := trim (title form);
     Payload.review := trim (review form);
     Payload.rating := Number (rating form);
     Payload.watched_on := or_null (watched_on form);
     Payload.poster_url := or_null (poster_url form);
     Payload.tags := normalize_tags (tags form) |}.

(** The names of the inputs that [onChange] is attached to. *)
Inductive FieldName :=
| title_field | rating_field | review_field
| watched_on_field | poster_url_field | tags_field.

(** [{ ...f, [name]: value }] *)
Definition set_field (name : FieldName) (value : jsstring) (f : FormState)
  : FormState :=
  match name with
  | title_field =>
      {| title := value; rating := rating f; review := review f;
         watched_on := watched_on f; poster_url := poster_url f;
         tags := tags f |}
  | rating_field =>
      {| title := title f; rating := FString value; review := review f;
         watched_on := watched_on f; poster_url := poster_url f;
         tags := tags f |}
  | review_field =>
      {| title := title f; rating := rating f; review := value;
         watched_on := watched_on f; poster_url := poster_url f;
         tags := tags f |}
  | watched_on_field =>
      {| title := title f; rating := rating f; review := review f;
         watched_on := value; poster_url := poster_url f; tags := tags f |}
  | poster_url_field =>
      {| title := title f; rating := rating f; review := review f;
         watched_on := watched_on f; poster_url := value; tags := tags f |}
  | tags_field =>
      {| title := title f; rating := rating f; review := review f;
         watched_on := watched_on f; poster_url := poster_url f;
         tags := value |}
  end.

(** [onChange], lines 78-81. *)
Definition onChange (name : FieldName) (value : jsstring) : Eff unit :=
  setForm (set_field name value).

Section Handlers.

Variable engine : Engine.
Variable env : Env.

(** [import.meta.env.VITE_BACKEND_URL || 'http://localhost:8000'] *)
Definition baseUrl : jsstring :=
  match VITE_BACKEND_URL env with
  | Some u => if JsString.truthy u then u else lit "http://localhost:8000"
  | None => lit "http://localhost:8000"
  end.

Definition reviews_url : jsstring := baseUrl ++ lit "/api/reviews".

(** [await fetch(...)]: the request is logged, then the promise settles
    as the backend decides. *)
Definition await_fetch (req : Request) : Eff Response :=
  fun st log =>
    match fetch env req with
    | Rejected e => (Throw e, st, log ++ [req])
    | Resolved res => (Normal res, st, log ++ [req])
    end.

(** [await res.json()] *)
Definition await_json (res : Response) : Eff json :=
  match res_json res with
  | inl e => throw e
  | inr v => ret v
  end.

(** [detail.detail]: reading a property of [null] throws; an object
    yields its own property; strings, numbers, booleans and arrays have
    no property of that name. *)
Definition get_detail (detail : json) : Eff (option json) :=
  match detail with
  | JNull => throw (Error (null_property_message engine))
  | JObject props => ret (lookup (lit "detail") props)
  | _ => ret None
  end.

(** [v || w] for a property that may be [undefined] *)
Definition js_or (v : option json) (w : json) : json :=
  match v with
  | Some j => if Json.truthy v then j else w
  | None => w
  end.

(** [new Error(v)]: the message is [ToString(v)]. *)
Definition new_Error (v : json) : Exn := Error (ToString engine v).

(** [loadReviews], lines 59-71. *)
Definition loadReviews : Eff unit :=
  setLoading true ;;
  try_catch_finally
    (res <- await_fetch (Get reviews_url) ;;
     throw_if (negb (ok res))
              (Error (lit "Failed: " ++ status_to_string (status res))) ;;
     data <- await_json res ;;
     setItems data)
    (fun e => setError (message e))
    (setLoading false).

(** [onSubmit], lines 83-128. [form] is the value the component was
    rendered with: the one in the state when the handler starts. *)
Definition onSubmit : Eff unit :=
  fun st0 =>
    let form := form st0 in
    (setError [] ;;
     setSuccess [] ;;
     setSubmitting true ;;
     try_catch_finally
       (let payload := make_payload form in
        throw_if (negb (JsString.truthy (Payload.title payload))
                  || negb (JsString.truthy (Payload.review payload)))
                 (Error (lit "Please provide at least a title and your review.")) ;;
        throw_if (isNaN (Payload.rating payload)
                  || lt (Payload.rating payload) (of_Z 0)
                  || gt (Payload.rating payload) (of_Z 10))
                 (Error (lit "Rating must be between 0 and 10")) ;;
        res <- await_fetch
                 (Post reviews_url
                       [(lit "Content-Type", lit "application/json")]
                       payload) ;;
        (if negb (ok res) then
           detail <- catch (await_json res) (fun _ => ret (JObject [])) ;;
           d <- get_detail detail ;;
           throw (new_Error (js_or d (JString (lit "Failed to save review"))))
         else ret tt) ;;
        setSuccess (lit "Saved!") ;;
        setForm (fun _ => default_form) ;;
        loadReviews)
       (fun e => setError (message e))
       (setSubmitting false)) st0.

(** A handler run to completion from [st]: the state it leaves and the
    requests it issued, in order. *)
Definition run (h : Eff unit) (st : State) : State * list Request :=
  match h st [] with
  | (_, st', log) => (st', log)
  end.

Definition load (st : State) : State * list Request := run loadReviews st.
Definition submit (st : State) : State * list Request := run onSubmit st.

(** The POST [onSubmit] issues for the form [f]. *)
Definition post_request (f : FormState) : Request :=
  Post reviews_url [(lit "Content-Type", lit "application/json")]
       (make_payload f).

Definition get_request : Request := Get reviews_url.

(** What a failed load reports, if the load fails. *)
Definition load_failure : option jsstring :=
  match fetch env get_request with
  | Rejected e => Some (message e)
  | Resolved res =>
      if ok res then
        match res_json res with
        | inl e => Some (message e)
        | inr _ => None
        end
      else Some (lit "Failed: " ++ status_to_string (status res))
  end.

End Handlers.

(* ================================================================== *)
(** * Vocabulary of the properties *)
(* ================================================================== *)

(** [s] begins, resp. ends, with a white space code unit. *)
Definition starts_with_space (s : jsstring) : bool :=
  match s with
  | [] => false
  | c :: _ => is_white_space c
  end.

Definition ends_with_space (s : jsstring) : bool :=
  starts_with_space (rev s).

Definition all_space (s : jsstring) : bool := forallb is_white_space s.

(** The pieces of [split sep s] contain no separator, there is at least
    one, and joining them with the separator gives [s] back. *)
Definition SplitOn (sep : code_unit) (s : jsstring)
           (pieces : list jsstring) : Prop :=
  pieces <> []
  /\ Forall (fun p => ~ In sep p) pieces
  /\ join [sep] pieces = s.

(** The two checks [onSubmit] makes before it calls the backend, on the
    form it was rendered with. *)
Definition required_missing (f : FormState) : bool :=
  negb (JsString.truthy (trim (title f)))
  || negb (JsString.truthy (trim (review f))).

Definition rating_rejected (r : number) : bool :=
  isNaN r || lt r (of_Z 0) || gt r (of_Z 10).

(** The state when every setter call of a handler has been applied. *)
Definition settled (f : FormState) (sub : bool) (e s : jsstring)
           (i : json) (l : bool) : State :=
  {| form := f; submitting := sub; error := e; success := s;
     items := i; loading := l |}.

(** [t] is [s] without the white space at its two ends. *)
Definition Trimmed (s t : jsstring) : Prop :=
  (exists l r, s = l ++ t ++ r /\ all_space l = true /\ all_space r = true)
  /\ starts_with_space t = false
  /\ ends_with_space t = false.

(** The tags the specification asks for, from the pieces of the raw
    text: each piece trimmed, the empty ones dropped. *)
Definition kept_tags (pieces : list jsstring) : list jsstring :=
  filter (fun t => negb (JsString.eqb t [])) (map trim pieces).

(** [onSubmit] reaches its POST. *)
Definition passes_validation (f : FormState) : bool :=
  negb (required_missing f) && negb (rating_rejected (Number (rating f))).

(** The body [onSubmit] looks at when the POST is refused:
    [await res.json().catch(() => ({}))]. *)
Definition error_body (res : Response) : json :=
  match res_json res with
  | inl _ => JObject []
  | inr v => v
  end.

(** The message [onSubmit] reports for a refused POST. *)
Definition save_failure (engine : Engine) (res : Response) : jsstring :=
  match error_body res with
  | JNull => null_property_message engine
  | JObject props =>
      ToString engine
               (js_or (lookup (lit "detail") props)
                      (JString (lit "Failed to save review")))
  | _ => lit "Failed to save review"
  end.

(** The ways through [onSubmit], with the state and the requests each
    one ends with. *)
Inductive SubmitPath (engine : Engine) (env : Env) (st : State)
  : State * list Request -> Prop :=
| path_required_missing :
    required_missing (form st) = true ->
    SubmitPath engine env st
      (settled (form st) false
               (lit "Please provide at least a title and your review.") []
               (items st) (loading st),
       [])
| path_rating_rejected :
    required_missing (form st) = false ->
    rating_rejected (Number (rating (form st))) = true ->
    SubmitPath engine env st
      (settled (form st) false (lit "Rating must be between 0 and 10") []
               (items st) (loading st),
       [])
| path_post_rejected (e : Exn) :
    passes_validation (form st) = true ->
    fetch env (post_request env (form st)) = Rejected e ->
    SubmitPath engine env st
      (settled (form st) false (message e) [] (items st) (loading st),
       [post_request env (form st)])
| path_post_not_ok (res : Response) :
    passes_validation (form st) = true ->
    fetch env (post_request env (form st)) = Resolved res ->
    ok res = false ->
    SubmitPath engine env st
      (settled (form st) false (save_failure engine res) [] (items st)
               (loading st),
       [post_request env (form st)])
| path_post_ok (res : Response) (st1 : State) :
    passes_validation (form st) = true ->
    fetch env (post_request env (form st)) = Resolved res ->
    ok res = true ->
    st1 = fst (load env (settled default_form true [] (lit "Saved!")
                                 (items st) (loading st))) ->
    SubmitPath engine env st
      (settled (form st1) false (error st1) (success st1) (items st1)
               (loading st1),
       [post_request env (form st); get_request env]).

(** ** Sequences of operations *)

Inductive Operation :=
| DoChange (name : FieldName) (value : jsstring)
| DoLoad (env : Env)
| DoSubmit (env : Env).

Section Sequences.

Variable engine : Engine.

Definition perform (st : State) (op : Operation) : State :=
  match op with
  | DoChange name value =>
      match onChange name value st [] with
      | (_, st', _) => st'
      end
  | DoLoad env => fst (load env st)
  | DoSubmit env => fst (submit engine env st)
  end.

Definition perform_all (ops : list Operation) (st : State) : State :=
  fold_left perform ops st.

(** No load fails while a success message is set: neither a load on its
    own nor the reload that ends a successful submit. *)
Definition load_is_quiet (st : State) (op : Operation) : Prop :=
  match op with
  | DoChange _ _ => True
  | DoLoad env => success st = [] \/ load_failure env = None
  | DoSubmit env =>
      In (get_request env) (snd (submit engine env st)) ->
      load_failure env = None
  end.

Fixpoint loads_are_quiet (ops : list Operation) (st : State) : Prop :=
  match ops with
  | [] => True
  | op :: rest => load_is_quiet st op /\ loads_are_quiet rest (perform st op)
  end.

End Sequences.

(** At most one of the two messages is shown. *)
Definition one_message (st : State) : Prop :=
  error st = [] \/ success st = [].

(** ** Sample data *)

(** An engine for the examples: the [TypeError] text is that of V8; no
    example converts a number of a response body to a string. *)
Definition sample_engine : Engine :=
  {| NumberToString := fun _ => lit "NaN";
     null_property_message :=
       lit "Cannot read properties of null (reading 'detail')" |}.

Definition responds (code : N) (body : Exn + json) : FetchResult :=
  Resolved {| status := code; res_json := body |}.

Definition stored_review : json :=
  JObject [(lit "id", JString (lit "r1"));
           (lit "title", JString (lit "Inception"));
           (lit "rating", JNumber (of_Z 9))].

(** A backend that answers every request in a fixed way. *)
Definition backend (on_post on_get : FetchResult) : Env :=
  {| VITE_BACKEND_URL := None;
     fetch := fun req =>
                match req with
                | Get _ => on_get
                | Post _ _ _ => on_post
                end |}.

(** It accepts the review and lists it. *)
Definition backend_accepting : Env :=
  backend (responds 201 (inr stored_review))
          (responds 200 (inr (JArray [stored_review]))).

(** It accepts the review, then fails to list. *)
Definition backend_list_down : Env :=
  backend (responds 201 (inr stored_review))
          (responds 500 (inr (JArray [stored_review]))).

(** It refuses the review with a [detail]. *)
Definition backend_refusing (detail : json) : Env :=
  backend (responds 400 (inr (JObject [(lit "detail", detail)])))
          (responds 200 (inr (JArray [stored_review]))).

Definition filled_form (rating_text : jsstring) : FormState :=
  {| title := lit "  Inception  "; rating := FString rating_text;
     review := lit "Great"; watched_on := lit "2024-01-05";
     poster_url := []; tags := lit "action, sci-fi ,  , classic" |}.

Definition showing (f : FormState) : State :=
  {| form := f; submitting := false; error := []; success := [];
     items := JArray []; loading := false |}.

(** The form of [filled_form] with only blanks for a title. *)
Definition blank_title_form : FormState :=
  set_field title_field (lit "   ") (filled_form (lit "8")).

(** It cannot be reached. *)
Definition backend_unreachable : Env :=
  backend (Rejected (Error (lit "Failed to fetch")))
          (Rejected (Error (lit "Failed to fetch"))).

(** It answers the GET with a body that is not JSON. *)
Definition backend_garbled : Env :=
  backend (responds 201 (inr stored_review))
          (responds 200 (inl (Error (lit "Unexpected token < in JSON")))).

(** A session: the list loads, the user types a title and a review, and
    submits to a backend that accepts the review but then fails to
    list. *)
Definition session_list_down : list Operation :=
  [DoLoad backend_accepting;
   DoChange title_field (lit "Inception");
   DoChange review_field (lit "Great");
   DoSubmit backend_list_down].

(** A session in which a failed submit is followed by a load that
    succeeds. *)
Definition session_reload_after_error : list Operation :=
  [DoSubmit backend_accepting; DoLoad backend_accepting].

(** A session in which nothing fails: the list loads, the user types,
    submits, and submits again the form that the first submit reset. *)
Definition session_quiet : list Operation :=
  [DoLoad backend_accepting;
   DoChange title_field (lit "Inception");
   DoChange review_field (lit "Great");
   DoSubmit backend_accepting;
   DoSubmit backend_accepting].

(** The integers from [lo], [n] of them. *)
Fixpoint integers_from (lo : Z) (n : nat) : list Z :=
  match n with
  | O => []
  | S k => lo :: integers_from (lo + 1) k
  end.

(* ================================================================== *)
(** * What is rendered *)
(* ================================================================== *)

(** ** [StarRating], lines 3-11 *)

Definition is_pos_zero (x : number) : bool :=
  match x with S754_zero false => true | _ => false end.

Definition is_neg_zero (x : number) : bool :=
  match x with S754_zero true => true | _ => false end.

(** [Math.min(a, b)]: [NaN] if either is; otherwise the numbers are
    taken in turn, starting from [+Infinity]: a [-0] replaces a [+0], and
    a number below the lowest so far replaces it. *)
Definition min_step (lowest x : number) : number :=
  if is_neg_zero x && is_pos_zero lowest then neg_zero
  else if lt x lowest then x else lowest.

Definition Math_min (a b : number) : number :=
  if isNaN a || isNaN b then NaN
  else min_step (min_step (S754_infinity false) a) b.

(** [Math.max(a, b)]: as [Math.min], from [-Infinity], a [+0] replacing
    a [-0]. *)
Definition max_step (highest x : number) : number :=
  if is_pos_zero x && is_neg_zero highest then pos_zero
  else if gt x highest then x else highest.

Definition Math_max (a b : number) : number :=
  if isNaN a || isNaN b then NaN
  else max_step (max_step (S754_infinity true) a) b.

(** The constant [clamped] of [StarRating], for a [value] that is a
    Number or is absent ([None], for which the default [0] stands in). *)
Definition clamped (value : option number) : number :=
  let value := match value with
               | None => of_Z 0
               | Some v => v
               end in
  Math_max (of_Z 0) (Math_min (of_Z 10) value).

(** ** The list of reviews, lines 181-191 *)

(** [r.id] for an element of the list: reading a property of [null]
    throws ([None]); a value without that property gives [undefined]. *)
Definition review_key (r : json) : option (option json) :=
  match r with
  | JNull => None
  | JObject props => Some (lookup (lit "id") props)
  | _ => Some None
  end.

(** The cards of [items.map((r) => <ReviewCard key={r.id} review={r} />)]:
    each review with its key, or [None] when a key cannot be read. *)
Fixpoint review_cards (l : list json) : option (list (option json * json)) :=
  match l with
  | [] => Some []
  | r :: rest =>
      match review_key r, review_cards rest with
      | Some k, Some cards => Some ((k, r) :: cards)
      | _, _ => None
      end
  end.

Inductive ListView :=
| ShowLoading
| ShowNoReviews
| ShowCards (cards : list (option json * json))
| RenderThrows.

(** What [App] puts under "Your Reviews". [items] is whatever the last
    successful GET held: [items.length === 0] and [items.map] are read off
    it as JavaScript does, a value without a [map] method making the render
    throw. [ShowCards] tells which reviews are handed to [ReviewCard], with
    which keys; what [ReviewCard] makes of each is not embedded. *)
Definition listSection (st : State) : ListView :=
  if loading st then ShowLoading
  else
    match items st with
    | JArray [] => ShowNoReviews
    | JArray l =>
        match review_cards l with
        | Some cards => ShowCards cards
        | None => RenderThrows
        end
    | JString [] => ShowNoReviews
    | JObject props =>
        match lookup (lit "length") props with
        | Some (JNumber (S754_zero _)) => ShowNoReviews
        | _ => RenderThrows
        end
    | _ => RenderThrows
    end.

(** ** The form, lines 142-176 *)

(** [value={form[name]}]: what the input called [name] shows. *)
Definition field_value (name : FieldName) (f : FormState) : FieldValue :=
  match name with
  | title_field => FString (title f)
  | rating_field => rating f
  | review_field => FString (review f)
  | watched_on_field => FString (watched_on f)
  | poster_url_field => FString (poster_url f)
  | tags_field => FString (tags f)
  end.

(** The submit button: [disabled={submitting}] and its label. *)
Definition button_disabled (st : State) : bool := submitting st.

Definition button_label (st : State) : jsstring :=
  if submitting st then lit "Saving..." else lit "Save Review".

(** ** Mounting, lines 73-76 *)

(** The effect that runs once when [App] is mounted. *)
Definition mount (env : Env) : State * list Request :=
  load env initial_state.

(** ** More vocabulary *)

(** A Number that is neither [NaN] nor infinite. *)
Definition is_finite (x : number) : bool :=
  match x with
  | S754_zero _ | S754_finite _ _ _ => true
  | _ => false
  end.

(** A tag as [onSubmit] sends it: not empty, no white space at its
    ends, no comma. *)
Definition clean_tag (t : jsstring) : Prop :=
  t <> [] /\ trim t = t /\ ~ In comma t.

(** The body of the GET of [env], when the load succeeds. *)
Definition loaded_list (env : Env) : option json :=
  match fetch env (get_request env) with
  | Rejected _ => None
  | Resolved res =>
      if ok res then
        match res_json res with
        | inl _ => None
        | inr data => Some data
        end
      else None
  end.

(** The form after the user typed [t] as title and [r] as review into
    the form [f]. *)
Definition typed (t r : jsstring) (f : FormState) : FormState :=
  set_field review_field r (set_field title_field t f).

(** Where a request goes. *)
Definition request_url (req : Request) : jsstring :=
  match req with
  | Get url => url
  | Post url _ _ => url
  end.


(** The environments of the loads and submits of a session. *)
Fixpoint backends_of (ops : list Operation) : list Env :=
  match ops with
  | [] => []
  | DoChange _ _ :: rest => backends_of rest
  | DoLoad env :: rest => env :: backends_of rest
  | DoSubmit env :: rest => env :: backends_of rest
  end.

(** The digits of a decimal numeral, most significant first, and the
    string that spells them. *)
Fixpoint digit_values (d : Decimal.uint) : list N :=
  match d with
  | Decimal.Nil => []
  | Decimal.D0 l => 0%N :: digit_values l
  | Decimal.D1 l => 1%N :: digit_values l
  | Decimal.D2 l => 2%N :: digit_values l
  | Decimal.D3 l => 3%N :: digit_values l
  | Decimal.D4 l => 4%N :: digit_values l
  | Decimal.D5 l => 5%N :: digit_values l
  | Decimal.D6 l => 6%N :: digit_values l
  | Decimal.D7 l => 7%N :: digit_values l
  | Decimal.D8 l => 8%N :: digit_values l
  | Decimal.D9 l => 9%N :: digit_values l
  end.

(** The code units ['0'] to ['9'] of the digits. *)
Definition digit_text (d : Decimal.uint) : jsstring :=
  map (fun v => (v + 48)%N) (digit_values d).


(** ** Tactics *)

(** Unfold the combinators of a handler down to its tests. *)
Ltac unfold_handlers :=
  unfold try_catch_finally, catch, bind, throw_if, await_fetch, await_json,
    get_detail, throw, ret, setError, setSuccess, setSubmitting, setForm,
    setItems, setLoading, settled.

(** Open a run of [onSubmit] with its two checks [H1] and [H2] at hand. *)
Ltac enter_submit H1 H2 :=
  unfold submit, run, onSubmit; unfold_handlers;
  unfold required_missing in H1; unfold rating_rejected in H2;
  cbn [make_payload Payload.title Payload.review Payload.rating form].

(* ================================================================== *)
(** * Strings: what [trim] and [split] compute *)
(* ================================================================== *)

Lemma truthy_false_iff (s : jsstring) :
  JsString.truthy s = false <-> s = [].
Proof.
  destruct s; simpl; split; intros H; try reflexivity; discriminate.
Qed.

Lemma truthy_true_iff (s : jsstring) :
  JsString.truthy s = true <-> s <> [].
Proof.
  destruct s; simpl; split; intros H; try congruence; discriminate.
Qed.

Lemma eqb_eq (a b : jsstring) : JsString.eqb a b = true <-> a = b.
Proof.
  unfold JsString.eqb. destruct (list_eq_dec N.eq_dec a b); split;
    intros; congruence.
Qed.

Lemma trimStart_split (s : jsstring) :
  exists l, s = l ++ trimStart s /\ all_space l = true.
Proof.
  induction s as [|c r [l [Hl Hs]]]; simpl.
  - exists []; split; reflexivity.
  - destruct (is_white_space c) eqn:Hc.
    + exists (c :: l). simpl. rewrite Hc, Hs. split; [ | reflexivity].
      f_equal. exact Hl.
    + exists []. split; reflexivity.
Qed.

Lemma trimStart_head (s : jsstring) :
  starts_with_space (trimStart s) = false.
Proof.
  induction s as [|c r IH]; simpl; [reflexivity | ].
  destruct (is_white_space c) eqn:Hc; [exact IH | simpl; exact Hc].
Qed.

Lemma all_space_rev (l : jsstring) : all_space (rev l) = all_space l.
Proof.
  unfold all_space. induction l as [|c l IH]; simpl; [reflexivity | ].
  rewrite forallb_app, IH. simpl. rewrite andb_true_r. apply andb_comm.
Qed.

Lemma trimEnd_split (s : jsstring) :
  exists r, s = trimEnd s ++ r /\ all_space r = true.
Proof.
  unfold trimEnd. destruct (trimStart_split (rev s)) as [l [Hl Hs]].
  exists (rev l). split.
  - rewrite <- rev_app_distr, <- Hl. symmetry. apply rev_involutive.
  - rewrite all_space_rev. exact Hs.
Qed.

Lemma trimEnd_last (s : jsstring) : ends_with_space (trimEnd s) = false.
Proof.
  unfold ends_with_space, trimEnd. rewrite rev_involutive.
  apply trimStart_head.
Qed.

Lemma starts_with_space_prefix (a b : jsstring) :
  starts_with_space (a ++ b) = false -> starts_with_space a = false.
Proof.
  destruct a; simpl; intros H; [reflexivity | exact H].
Qed.

(** [trim s] is [s] with a run of white space removed at each end, and
    it neither begins nor ends with white space. *)
Lemma trim_spec (s : jsstring) :
  (exists l r, s = l ++ trim s ++ r
               /\ all_space l = true /\ all_space r = true)
  /\ starts_with_space (trim s) = false
  /\ ends_with_space (trim s) = false.
Proof.
  unfold trim.
  destruct (trimStart_split s) as [l [Hl Hls]].
  destruct (trimEnd_split (trimStart s)) as [r [Hr Hrs]].
  split; [ | split].
  - exists l, r. split; [ | split; assumption].
    rewrite <- Hr. exact Hl.
  - apply starts_with_space_prefix with (b := r). rewrite <- Hr.
    apply trimStart_head.
  - apply trimEnd_last.
Qed.

Lemma trim_nil : trim [] = [].
Proof. reflexivity. Qed.

(** A string without white space at its ends is left as it is. *)
Lemma trimStart_id (s : jsstring) :
  starts_with_space s = false -> trimStart s = s.
Proof.
  destruct s as [|c r]; simpl; intros H; [reflexivity | ].
  rewrite H. reflexivity.
Qed.

Lemma trim_id (s : jsstring) :
  starts_with_space s = false -> ends_with_space s = false -> trim s = s.
Proof.
  intros Hs He. unfold trim, trimEnd. rewrite (trimStart_id _ Hs).
  unfold ends_with_space in He. rewrite (trimStart_id _ He).
  apply rev_involutive.
Qed.

Lemma trim_idempotent (s : jsstring) : trim (trim s) = trim s.
Proof.
  destruct (trim_spec s) as [_ [Hs He]]. apply trim_id; assumption.
Qed.


Lemma split_not_nil (sep : code_unit) (s : jsstring) : split sep s <> [].
Proof.
  induction s as [|c r IH]; simpl; [discriminate | ].
  destruct (c =? sep)%N; [discriminate | ].
  destruct (split sep r); [congruence | discriminate].
Qed.

Lemma split_spec (sep : code_unit) (s : jsstring) :
  SplitOn sep s (split sep s).
Proof.
  split; [apply split_not_nil | ].
  induction s as [|c r [IHf IHj]]; simpl.
  - split; [ | reflexivity]. constructor; [ | constructor].
    intros H; exact H.
  - destruct (c =? sep)%N eqn:Hc.
    + apply N.eqb_eq in Hc. subst c. split.
      * constructor; [intros H; exact H | exact IHf].
      * destruct (split sep r) as [|p ps] eqn:Hs.
        -- exfalso. exact (split_not_nil sep r Hs).
        -- simpl in *. rewrite IHj. reflexivity.
    + apply N.eqb_neq in Hc.
      destruct (split sep r) as [|p ps] eqn:Hs.
      * exfalso. exact (split_not_nil sep r Hs).
      * pose proof (Forall_inv IHf) as Hp.
        pose proof (Forall_inv_tail IHf) as Hps. split.
        -- constructor; [ | exact Hps].
           intros [H | H]; [congruence | exact (Hp H)].
        -- rewrite <- IHj. destruct ps; reflexivity.
Qed.

(** There is only one way to cut [s] at its separators. *)
Lemma SplitOn_unique (sep : code_unit) (s : jsstring)
      (p q : list jsstring) :
  SplitOn sep s p -> SplitOn sep s q -> p = q.
Proof.
  intros [Hp0 [Hpf Hpj]] [Hq0 [Hqf Hqj]]. subst s.
  revert q Hq0 Hqf Hqj.
  induction p as [|a p IH]; intros q Hq0 Hqf Hqj; [congruence | ].
  destruct q as [|b q]; [congruence | ].
  inversion Hpf as [|? ? Ha Hp]; subst.
  inversion Hqf as [|? ? Hb Hq]; subst.
  assert (Hcut : forall (a b : jsstring) (x y : jsstring),
             ~ In sep a -> ~ In sep b ->
             a ++ sep :: x = b ++ sep :: y -> a = b /\ x = y).
  { clear. induction a as [|c a IHa]; intros [|d b] x y Ha Hb E;
      simpl in *.
    - inversion E; auto.
    - inversion E; subst. exfalso; apply Hb; left; reflexivity.
    - inversion E; subst. exfalso; apply Ha; left; reflexivity.
    - inversion E; subst.
      destruct (IHa b x y) as [E1 E2]; auto.
      split; congruence. }
  assert (Hend : forall (a b : jsstring) (y : jsstring),
             ~ In sep a -> a = b ++ sep :: y -> False).
  { clear. intros a b y Ha E. apply Ha. rewrite E.
    apply in_or_app. right. left. reflexivity. }
  destruct p as [|a' p]; destruct q as [|b' q]; simpl in Hqj.
  - congruence.
  - exfalso. symmetry in Hqj. exact (Hend _ _ _ Ha Hqj).
  - exfalso. exact (Hend _ _ _ Hb Hqj).
  - destruct (Hcut _ _ _ _ Hb Ha Hqj) as [E1 E2]. subst b.
    f_equal. apply IH; try assumption; try discriminate.
Qed.


(* ================================================================== *)
(** * The paths through the handlers *)
(* ================================================================== *)

Section Paths.

Variable engine : Engine.
Variable env : Env.


Lemma loadReviews_rejected (st : State) (log : list Request) (e : Exn) :
  fetch env (get_request env) = Rejected e ->
  loadReviews env st log =
    (Normal tt,
     settled (form st) (submitting st) (message e) (success st)
             (items st) false,
     log ++ [get_request env]).
Proof.
  intros H. unfold loadReviews. unfold_handlers.
  fold (get_request env). rewrite H. reflexivity.
Qed.

Lemma loadReviews_not_ok (st : State) (log : list Request)
      (res : Response) :
  fetch env (get_request env) = Resolved res -> ok res = false ->
  loadReviews env st log =
    (Normal tt,
     settled (form st) (submitting st)
             (lit "Failed: " ++ status_to_string (status res))
             (success st) (items st) false,
     log ++ [get_request env]).
Proof.
  intros H Hok. unfold loadReviews. unfold_handlers.
  fold (get_request env). rewrite H, Hok. reflexivity.
Qed.

Lemma loadReviews_bad_json (st : State) (log : list Request)
      (res : Response) (e : Exn) :
  fetch env (get_request env) = Resolved res -> ok res = true ->
  res_json res = inl e ->
  loadReviews env st log =
    (Normal tt,
     settled (form st) (submitting st) (message e) (success st)
             (items st) false,
     log ++ [get_request env]).
Proof.
  intros H Hok Hj. unfold loadReviews. unfold_handlers.
  fold (get_request env). rewrite H, Hok, Hj. reflexivity.
Qed.

Lemma loadReviews_ok (st : State) (log : list Request)
      (res : Response) (data : json) :
  fetch env (get_request env) = Resolved res -> ok res = true ->
  res_json res = inr data ->
  loadReviews env st log =
    (Normal tt,
     settled (form st) (submitting st) (error st) (success st) data false,
     log ++ [get_request env]).
Proof.
  intros H Hok Hj. unfold loadReviews. unfold_handlers.
  fold (get_request env). rewrite H, Hok, Hj. reflexivity.
Qed.

(** [loadReviews] never throws and issues exactly the GET; inside
    another handler it acts as [load] does on its own. *)
Lemma loadReviews_run (st : State) (log : list Request) :
  loadReviews env st log =
    (Normal tt, fst (load env st), log ++ [get_request env]).
Proof.
  unfold load, run.
  destruct (fetch env (get_request env)) as [e | res] eqn:H.
  - rewrite !(loadReviews_rejected _ _ _ H). reflexivity.
  - destruct (ok res) eqn:Hok.
    + destruct (res_json res) as [e | data] eqn:Hj.
      * rewrite !(loadReviews_bad_json _ _ _ _ H Hok Hj). reflexivity.
      * rewrite !(loadReviews_ok _ _ _ _ H Hok Hj). reflexivity.
    + rewrite !(loadReviews_not_ok _ _ _ H Hok). reflexivity.
Qed.

Lemma load_requests (st : State) : snd (load env st) = [get_request env].
Proof.
  unfold load, run. rewrite loadReviews_run. reflexivity.
Qed.

(** The outcome of a load, by what the GET did. *)
Lemma load_state (st : State) :
  fst (load env st) =
    match fetch env (get_request env) with
    | Rejected e =>
        settled (form st) (submitting st) (message e) (success st)
                (items st) false
    | Resolved res =>
        if ok res then
          match res_json res with
          | inl e =>
              settled (form st) (submitting st) (message e) (success st)
                      (items st) false
          | inr data =>
              settled (form st) (submitting st) (error st) (success st)
                      data false
          end
        else
          settled (form st) (submitting st)
                  (lit "Failed: " ++ status_to_string (status res))
                  (success st) (items st) false
    end.
Proof.
  unfold load, run.
  destruct (fetch env (get_request env)) as [e | res] eqn:H.
  - rewrite (loadReviews_rejected _ _ _ H). reflexivity.
  - destruct (ok res) eqn:Hok.
    + destruct (res_json res) as [e | data] eqn:Hj.
      * rewrite (loadReviews_bad_json _ _ _ _ H Hok Hj). reflexivity.
      * rewrite (loadReviews_ok _ _ _ _ H Hok Hj). reflexivity.
    + rewrite (loadReviews_not_ok _ _ _ H Hok). reflexivity.
Qed.

End Paths.


Section SubmitPaths.

Variable engine : Engine.
Variable env : Env.

Lemma passes_validation_true (f : FormState) :
  passes_validation f = true <->
  required_missing f = false /\ rating_rejected (Number (rating f)) = false.
Proof.
  unfold passes_validation. rewrite andb_true_iff, !negb_true_iff.
  reflexivity.
Qed.

Lemma required_missing_false (f : FormState) :
  required_missing f = false <->
  trim (title f) <> [] /\ trim (review f) <> [].
Proof.
  unfold required_missing. rewrite orb_false_iff, !negb_false_iff.
  rewrite !truthy_true_iff. reflexivity.
Qed.

Lemma required_missing_true (f : FormState) :
  required_missing f = true <->
  trim (title f) = [] \/ trim (review f) = [].
Proof.
  unfold required_missing. rewrite orb_true_iff, !negb_true_iff.
  rewrite !truthy_false_iff. reflexivity.
Qed.

Lemma rating_rejected_true (r : number) :
  rating_rejected r = true <->
  isNaN r = true \/ lt r (of_Z 0) = true \/ gt r (of_Z 10) = true.
Proof.
  unfold rating_rejected. rewrite !orb_true_iff. tauto.
Qed.

Lemma rating_rejected_false (r : number) :
  rating_rejected r = false <->
  isNaN r = false /\ lt r (of_Z 0) = false /\ gt r (of_Z 10) = false.
Proof.
  unfold rating_rejected. rewrite !orb_false_iff. tauto.
Qed.

Lemma submit_required_missing (st : State) :
  required_missing (form st) = true ->
  submit engine env st =
    (settled (form st) false
             (lit "Please provide at least a title and your review.") []
             (items st) (loading st),
     []).
Proof.
  intros H. enter_submit H H. rewrite H. reflexivity.
Qed.

Lemma submit_rating_rejected (st : State) :
  required_missing (form st) = false ->
  rating_rejected (Number (rating (form st))) = true ->
  submit engine env st =
    (settled (form st) false (lit "Rating must be between 0 and 10") []
             (items st) (loading st),
     []).
Proof.
  intros H1 H2. enter_submit H1 H2. rewrite H1, H2. reflexivity.
Qed.

Lemma submit_post_rejected (st : State) (e : Exn) :
  passes_validation (form st) = true ->
  fetch env (post_request env (form st)) = Rejected e ->
  submit engine env st =
    (settled (form st) false (message e) [] (items st) (loading st),
     [post_request env (form st)]).
Proof.
  rewrite passes_validation_true. intros [H1 H2] H.
  enter_submit H1 H2. unfold post_request in H. cbn [make_payload] in H.
  rewrite H1, H2, H. reflexivity.
Qed.

Lemma submit_post_not_ok (st : State) (res : Response) :
  passes_validation (form st) = true ->
  fetch env (post_request env (form st)) = Resolved res ->
  ok res = false ->
  submit engine env st =
    (settled (form st) false (save_failure engine res) [] (items st)
             (loading st),
     [post_request env (form st)]).
Proof.
  rewrite passes_validation_true. intros [H1 H2] H Hok.
  enter_submit H1 H2. unfold post_request in H. cbn [make_payload] in H.
  rewrite H1, H2, H, Hok. cbn [negb].
  unfold save_failure, error_body, new_Error.
  destruct (res_json res) as [e | v]; [reflexivity | ].
  destruct v; reflexivity.
Qed.

Lemma submit_post_ok (st : State) (res : Response) :
  passes_validation (form st) = true ->
  fetch env (post_request env (form st)) = Resolved res ->
  ok res = true ->
  submit engine env st =
    (let st1 :=
       fst (load env (settled default_form true [] (lit "Saved!")
                              (items st) (loading st))) in
     settled (form st1) false (error st1) (success st1) (items st1)
             (loading st1),
     [post_request env (form st); get_request env]).
Proof.
  rewrite passes_validation_true. intros [H1 H2] H Hok.
  enter_submit H1 H2. unfold post_request in H. cbn [make_payload] in H.
  rewrite H1, H2, H, Hok. cbn [negb].
  rewrite loadReviews_run. reflexivity.
Qed.

(** Every run of [onSubmit] takes one of the five ways. *)
Lemma submit_path (st : State) :
  SubmitPath engine env st (submit engine env st).
Proof.
  destruct (required_missing (form st)) eqn:H1.
  - rewrite (submit_required_missing _ H1). constructor. exact H1.
  - destruct (rating_rejected (Number (rating (form st)))) eqn:H2.
    + rewrite (submit_rating_rejected _ H1 H2). constructor; assumption.
    + assert (Hv : passes_validation (form st) = true)
        by (apply passes_validation_true; split; assumption).
      destruct (fetch env (post_request env (form st))) as [e | res] eqn:H.
      * rewrite (submit_post_rejected _ _ Hv H). constructor; assumption.
      * destruct (ok res) eqn:Hok.
        -- rewrite (submit_post_ok _ _ Hv H Hok).
           eapply path_post_ok; eauto.
        -- rewrite (submit_post_not_ok _ _ Hv H Hok).
           constructor; assumption.
Qed.

(** The requests of a submit: nothing, the POST, or the POST and the
    GET of the reload. *)
Lemma submit_requests (st : State) :
  (passes_validation (form st) = false /\ snd (submit engine env st) = [])
  \/ (passes_validation (form st) = true
      /\ (snd (submit engine env st) = [post_request env (form st)]
          \/ snd (submit engine env st) =
               [post_request env (form st); get_request env])).
Proof.
  destruct (submit_path st) as [H1 | H1 H2 | e Hv H | res Hv H Hok
                               | res st1 Hv H Hok E]; cbn [snd].
  - left. unfold passes_validation. rewrite H1. auto.
  - left. unfold passes_validation. rewrite H1, H2. auto.
  - right. auto.
  - right. auto.
  - right. auto.
Qed.

(** Whatever is posted is the payload made from the form. *)
Lemma posted_payload (st : State) (u : jsstring)
      (h : list (jsstring * jsstring)) (p : Payload.t) :
  In (Post u h p) (snd (submit engine env st)) ->
  p = make_payload (form st).
Proof.
  destruct (submit_requests st) as [[_ E] | [_ [E | E]]]; rewrite E;
    unfold post_request, get_request; simpl; intros H;
    repeat (destruct H as [H | H]); try contradiction;
    try discriminate; inversion H; reflexivity.
Qed.

(** With both checks passed the first request is the POST. *)
Lemma submit_reaches_post (st : State) :
  required_missing (form st) = false ->
  rating_rejected (Number (rating (form st))) = false ->
  exists rest,
    snd (submit engine env st) = post_request env (form st) :: rest.
Proof.
  intros H1 H2.
  destruct (submit_requests st) as [[Hv _] | [_ [E | E]]].
  - unfold passes_validation in Hv. rewrite H1, H2 in Hv. discriminate.
  - rewrite E. eexists. reflexivity.
  - rewrite E. eexists. reflexivity.
Qed.

End SubmitPaths.

(* ================================================================== *)
(** * Validation before the request *)
(* ================================================================== *)

(** C1. When the title or the review is empty once trimmed, [onSubmit]
    reports "Please provide at least a title and your review.", issues no
    request at all, and leaves the submitting flag cleared. *)
Theorem C1_required_fields (engine : Engine) (env : Env) (st : State) :
  trim (title (form st)) = [] \/ trim (review (form st)) = [] ->
  error (fst (submit engine env st)) =
    lit "Please provide at least a title and your review."
  /\ snd (submit engine env st) = []
  /\ submitting (fst (submit engine env st)) = false.
Proof.
  intros H. apply required_missing_true in H.
  rewrite (submit_required_missing engine env _ H).
  repeat split.
Qed.

Lemma C1_required_fields_witness :
  (trim (title (form (showing blank_title_form))) = []
   \/ trim (review (form (showing blank_title_form))) = [])
  /\ error (fst (submit sample_engine backend_accepting
                        (showing blank_title_form))) =
       lit "Please provide at least a title and your review."
  /\ snd (submit sample_engine backend_accepting
                 (showing blank_title_form)) = []
  /\ submitting (fst (submit sample_engine backend_accepting
                             (showing blank_title_form))) = false.
Proof.
  split.
  - left. reflexivity.
  - apply (C1_required_fields sample_engine backend_accepting
                              (showing blank_title_form)).
    left. reflexivity.
Defined.

(** The review is required just as the title is; the rating is not
    looked at when either is missing. *)
Example required_review_missing :
  submit sample_engine backend_accepting
         (showing (set_field review_field (lit " ")
                             (filled_form (lit "abc")))) =
    (settled (set_field review_field (lit " ") (filled_form (lit "abc")))
             false
             (lit "Please provide at least a title and your review.") []
             (JArray []) false,
     []).
Proof. reflexivity. Qed.

(** Numbers the form can hold for a rating. *)
Lemma Number_of_digits :
  Number (FString (lit "0")) = of_Z 0
  /\ Number (FString (lit "10")) = of_Z 10
  /\ Number (FString (lit "-1")) = of_Z (-1)
  /\ Number (FString (lit "11")) = of_Z 11
  /\ Number (FString (lit "7")) = of_Z 7
  /\ Number (FNumber (of_Z 7)) = of_Z 7.
Proof. repeat split; vm_compute; reflexivity. Qed.

Lemma Number_of_empty : Number (FString []) = pos_zero.
Proof. reflexivity. Qed.

(** [StringToNumber] on literals of each form. *)
Example StringToNumber_examples :
  StringToNumber (lit " 12 ") = of_Z 12
  /\ StringToNumber (lit "+5.") = of_Z 5
  /\ StringToNumber (lit ".5e1") = of_Z 5
  /\ StringToNumber (lit "1e3") = of_Z 1000
  /\ StringToNumber (lit "0x1F") = of_Z 31
  /\ StringToNumber (lit "0b101") = of_Z 5
  /\ StringToNumber (lit "7.5") = of_ratio false 15 2
  /\ StringToNumber (lit "0.1") = S754_finite false 7205759403792794 (-56)
  /\ StringToNumber (lit "10.000000000000000000001") = of_Z 10
  /\ StringToNumber (lit "9007199254740993") = of_Z 9007199254740992
  /\ StringToNumber (lit "1e400") = S754_infinity false
  /\ StringToNumber (lit "-1e-400") = neg_zero
  /\ StringToNumber (lit "-Infinity") = S754_infinity true
  /\ StringToNumber (lit "-0x10") = NaN
  /\ StringToNumber (lit "1_000") = NaN
  /\ StringToNumber (lit "1e") = NaN
  /\ StringToNumber (lit ".") = NaN
  /\ StringToNumber (lit "8 stars") = NaN.
Proof. repeat split; vm_compute; reflexivity. Qed.

Lemma rating_bounds_examples :
  rating_rejected (of_Z 0) = false
  /\ rating_rejected (of_Z 10) = false
  /\ rating_rejected (of_Z (-1)) = true
  /\ rating_rejected (of_Z 11) = true
  /\ rating_rejected neg_zero = false
  /\ rating_rejected NaN = true
  /\ rating_rejected (StringToNumber (lit "10.5")) = true
  /\ rating_rejected (StringToNumber (lit "ten")) = true
  /\ rating_rejected (S754_infinity false) = true.
Proof. repeat split; vm_compute; reflexivity. Qed.

(** On the integers from -50 to 50 the check rejects exactly those
    outside 0..10. *)
Example rating_rejected_integers :
  forallb (fun z => Bool.eqb (rating_rejected (of_Z z))
                             ((z <? 0) || (10 <? z))%Z)
          (integers_from (-50) 101) = true.
Proof. vm_compute. reflexivity. Qed.

(** C2. With a title and a review, [onSubmit] stops before the request
    with "Rating must be between 0 and 10" exactly when the rating, as a
    number, is NaN, below 0 or above 10; otherwise it goes on to the POST,
    as it does for the ratings 0 and 10. *)
Theorem C2_rating_bounds (engine : Engine) (env : Env) (st : State) :
  trim (title (form st)) <> [] ->
  trim (review (form st)) <> [] ->
  ((isNaN (Number (rating (form st))) = true
    \/ lt (Number (rating (form st))) (of_Z 0) = true
    \/ gt (Number (rating (form st))) (of_Z 10) = true)
   <-> (error (fst (submit engine env st)) =
          lit "Rating must be between 0 and 10"
        /\ snd (submit engine env st) = []))
  /\ ((isNaN (Number (rating (form st))) = false
       /\ lt (Number (rating (form st))) (of_Z 0) = false
       /\ gt (Number (rating (form st))) (of_Z 10) = false) ->
      exists rest,
        snd (submit engine env st) = post_request env (form st) :: rest)
  /\ (Number (rating (form st)) = of_Z 0
      \/ Number (rating (form st)) = of_Z 10 ->
      exists rest,
        snd (submit engine env st) = post_request env (form st) :: rest).
Proof.
  intros Ht Hr.
  assert (H1 : required_missing (form st) = false)
    by (apply required_missing_false; split; assumption).
  pose proof (submit_reaches_post engine env st H1) as Hgo.
  split; [ | split].
  - rewrite <- rating_rejected_true. split.
    + intros H2. rewrite (submit_rating_rejected engine env _ H1 H2).
      split; reflexivity.
    + intros [_ Hlog].
      destruct (rating_rejected (Number (rating (form st)))) eqn:H2;
        [reflexivity | ].
      destruct (Hgo eq_refl) as [rest E]. rewrite E in Hlog. discriminate.
  - intros H2. apply Hgo. apply rating_rejected_false. exact H2.
  - intros [E | E]; apply Hgo; rewrite E; vm_compute; reflexivity.
Qed.

Lemma C2_rating_bounds_witness :
  trim (title (form (showing (filled_form (lit "10"))))) <> []
  /\ trim (review (form (showing (filled_form (lit "10"))))) <> []
  /\ exists rest,
       snd (submit sample_engine backend_accepting
                   (showing (filled_form (lit "10")))) =
         post_request backend_accepting
                      (form (showing (filled_form (lit "10")))) :: rest.
Proof.
  assert (Ht : trim (title (form (showing (filled_form (lit "10"))))) <> [])
    by (vm_compute; discriminate).
  assert (Hr : trim (review (form (showing (filled_form (lit "10"))))) <> [])
    by (vm_compute; discriminate).
  split; [exact Ht | split; [exact Hr | ]].
  apply (C2_rating_bounds sample_engine backend_accepting
                          (showing (filled_form (lit "10"))) Ht Hr).
  right. vm_compute. reflexivity.
Defined.

(** Ratings just outside the range stop at the check; the backend is
    not called. *)
Example rating_out_of_range :
  submit sample_engine backend_accepting (showing (filled_form (lit "-1")))
    = (settled (filled_form (lit "-1")) false
               (lit "Rating must be between 0 and 10") [] (JArray []) false,
       [])
  /\ submit sample_engine backend_accepting
            (showing (filled_form (lit "11")))
     = (settled (filled_form (lit "11")) false
                (lit "Rating must be between 0 and 10") [] (JArray [])
                false,
        []).
Proof. split; vm_compute; reflexivity. Qed.

(** C10. An empty rating field converts to the number 0, which passes
    the check, so the POST is issued with rating 0. *)
Theorem C10_empty_rating_is_zero (engine : Engine) (env : Env)
        (st : State) :
  rating (form st) = FString [] ->
  trim (title (form st)) <> [] ->
  trim (review (form st)) <> [] ->
  Number (rating (form st)) = of_Z 0
  /\ exists u h p rest,
       snd (submit engine env st) = Post u h p :: rest
       /\ Payload.rating p = of_Z 0.
Proof.
  intros E Ht Hr. split; [rewrite E; reflexivity | ].
  assert (H1 : required_missing (form st) = false)
    by (apply required_missing_false; split; assumption).
  assert (H2 : rating_rejected (Number (rating (form st))) = false)
    by (rewrite E; reflexivity).
  destruct (submit_reaches_post engine env st H1 H2) as [rest Hlog].
  exists (reviews_url env), [(lit "Content-Type", lit "application/json")],
    (make_payload (form st)), rest.
  split; [exact Hlog | ].
  cbn [make_payload Payload.rating]. rewrite E. reflexivity.
Qed.

Lemma C10_empty_rating_is_zero_witness :
  rating (form (showing (filled_form []))) = FString []
  /\ trim (title (form (showing (filled_form [])))) <> []
  /\ trim (review (form (showing (filled_form [])))) <> []
  /\ Number (rating (form (showing (filled_form [])))) = of_Z 0
  /\ exists u h p rest,
       snd (submit sample_engine backend_accepting
                   (showing (filled_form []))) = Post u h p :: rest
       /\ Payload.rating p = of_Z 0.
Proof.
  assert (Ht : trim (title (form (showing (filled_form [])))) <> [])
    by (vm_compute; discriminate).
  assert (Hr : trim (review (form (showing (filled_form [])))) <> [])
    by (vm_compute; discriminate).
  split; [reflexivity | split; [exact Ht | split; [exact Hr | ]]].
  exact (C10_empty_rating_is_zero sample_engine backend_accepting
                                  (showing (filled_form []))
                                  eq_refl Ht Hr).
Defined.

(** Blanks alone convert to 0 as the empty field does, and the sign of
    a zero does not matter to the check. *)
Example blank_ratings :
  Number (FString (lit "   ")) = of_Z 0
  /\ Number (FString (lit "-0")) = neg_zero
  /\ rating_rejected (Number (FString (lit "-0"))) = false.
Proof. repeat split. Qed.

(* ================================================================== *)
(** * The payload *)
(* ================================================================== *)

Lemma trimStart_spaces (l x : jsstring) :
  all_space l = true -> trimStart (l ++ x) = trimStart x.
Proof.
  induction l as [|c l IH]; simpl; intros H; [reflexivity | ].
  apply andb_true_iff in H. destruct H as [Hc Hl].
  rewrite Hc. exact (IH Hl).
Qed.

Lemma trimStart_all_space (l : jsstring) :
  all_space l = true -> trimStart l = [].
Proof.
  intros H. rewrite <- (app_nil_r l). rewrite (trimStart_spaces _ [] H).
  reflexivity.
Qed.

(** [Trimmed] describes [trim] and nothing else. *)
Lemma Trimmed_iff (s t : jsstring) : Trimmed s t <-> t = trim s.
Proof.
  split.
  - intros [[l [r [E [Hl Hr]]]] [Hs He]]. subst s. unfold trim.
    rewrite (trimStart_spaces _ _ Hl).
    destruct t as [|c t].
    + simpl. rewrite (trimStart_all_space _ Hr). reflexivity.
    + rewrite trimStart_id by exact Hs.
      unfold trimEnd. rewrite rev_app_distr.
      rewrite trimStart_spaces by (rewrite all_space_rev; exact Hr).
      rewrite trimStart_id by exact He.
      symmetry. apply rev_involutive.
  - intros ->. exact (trim_spec s).
Qed.

Lemma truthy_not_empty (t : jsstring) :
  JsString.truthy t = negb (JsString.eqb t []).
Proof. destruct t; reflexivity. Qed.

Lemma or_null_spec (s : jsstring) :
  or_null s = if JsString.eqb s [] then None else Some s.
Proof. destruct s; reflexivity. Qed.

(** C8. The payload that is posted carries the title and the review
    without the white space around them, and carries [watched_on] and
    [poster_url] as null when the field is empty and as they are
    otherwise. *)
Theorem C8_payload_fields (engine : Engine) (env : Env) (st : State)
        (u : jsstring) (h : list (jsstring * jsstring)) (p : Payload.t) :
  In (Post u h p) (snd (submit engine env st)) ->
  Trimmed (title (form st)) (Payload.title p)
  /\ Trimmed (review (form st)) (Payload.review p)
  /\ Payload.watched_on p =
       (if JsString.eqb (watched_on (form st)) [] then None
        else Some (watched_on (form st)))
  /\ Payload.poster_url p =
       (if JsString.eqb (poster_url (form st)) [] then None
        else Some (poster_url (form st)))
  /\ (title (form st) = lit "  Inception  " ->
      Payload.title p = lit "Inception").
Proof.
  intros H. apply posted_payload in H. subst p.
  cbn [make_payload Payload.title Payload.review Payload.watched_on
       Payload.poster_url].
  repeat split; try apply trim_spec; try apply or_null_spec.
  intros E. rewrite E. reflexivity.
Qed.

Lemma C8_payload_fields_witness :
  In (post_request backend_accepting (filled_form (lit "8")))
     (snd (submit sample_engine backend_accepting
                  (showing (filled_form (lit "8")))))
  /\ Payload.title (make_payload (filled_form (lit "8"))) = lit "Inception".
Proof.
  assert (H : In (post_request backend_accepting (filled_form (lit "8")))
                 (snd (submit sample_engine backend_accepting
                              (showing (filled_form (lit "8"))))))
    by (left; reflexivity).
  split; [exact H | ].
  apply (C8_payload_fields sample_engine backend_accepting
                           (showing (filled_form (lit "8"))) _ _ _ H).
  reflexivity.
Defined.

(** The payload of the sample form, field by field. *)
Example sample_payload :
  make_payload (filled_form (lit "8")) =
    {| Payload.title := lit "Inception";
       Payload.review := lit "Great";
       Payload.rating := of_Z 8;
       Payload.watched_on := Some (lit "2024-01-05");
       Payload.poster_url := None;
       Payload.tags := Some [lit "action"; lit "sci-fi"; lit "classic"] |}.
Proof. vm_compute. reflexivity. Qed.

(** C3. The tags that are sent: null for the empty text; otherwise the
    text is cut at its commas, each piece is trimmed and the empty ones are
    dropped, in the order of the text. A text of commas only gives the
    empty sequence, not null. *)
Theorem C3_tags_normalization :
  (forall raw : jsstring,
      (raw = [] -> normalize_tags raw = None)
      /\ (raw <> [] ->
          exists pieces,
            SplitOn comma raw pieces
            /\ normalize_tags raw = Some (kept_tags pieces)))
  /\ (forall engine env st u h p,
         In (Post u h p) (snd (submit engine env st)) ->
         Payload.tags p = normalize_tags (tags (form st)))
  /\ normalize_tags (lit "action, sci-fi ,  , classic") =
       Some [lit "action"; lit "sci-fi"; lit "classic"]
  /\ normalize_tags (lit "") = None
  /\ normalize_tags (lit ",,,") = Some [].
Proof.
  split; [ | split; [ | repeat split]].
  - intros raw. split.
    + intros ->. reflexivity.
    + intros H. exists (split comma raw). split; [apply split_spec | ].
      unfold normalize_tags, kept_tags.
      apply truthy_true_iff in H. rewrite H. f_equal.
      apply filter_ext. exact truthy_not_empty.
  - intros engine env st u h p H. apply posted_payload in H. subst p.
    reflexivity.
Qed.

Lemma C3_tags_normalization_witness :
  In (post_request backend_accepting (filled_form (lit "8")))
     (snd (submit sample_engine backend_accepting
                  (showing (filled_form (lit "8")))))
  /\ Payload.tags (make_payload (filled_form (lit "8"))) =
       normalize_tags (tags (form (showing (filled_form (lit "8"))))).
Proof.
  assert (H : In (post_request backend_accepting (filled_form (lit "8")))
                 (snd (submit sample_engine backend_accepting
                              (showing (filled_form (lit "8"))))))
    by (left; reflexivity).
  split; [exact H | ].
  exact (proj1 (proj2 C3_tags_normalization) sample_engine
               backend_accepting (showing (filled_form (lit "8")))
               _ _ _ H).
Defined.

(** Blanks alone are not the empty text: they give the empty sequence,
    as commas alone do. *)
Example tags_of_blanks :
  normalize_tags (lit "  ") = Some []
  /\ normalize_tags (lit " , ") = Some []
  /\ normalize_tags (lit "a,,b") = Some [lit "a"; lit "b"]
  /\ normalize_tags (lit "drama") = Some [lit "drama"].
Proof. repeat split. Qed.

(** The tags that are kept are not empty, have no white space at their
    ends and no comma in them. *)
Lemma kept_tags_clean (raw : jsstring) (l : list jsstring) :
  normalize_tags raw = Some l ->
  Forall (fun t => t <> [] /\ trim t = t /\ ~ In comma t) l.
Proof.
  unfold normalize_tags. destruct (JsString.truthy raw); [ | discriminate].
  intros E. inversion E as [E']. clear E E'.
  apply Forall_forall. intros t Ht.
  apply filter_In in Ht. destruct Ht as [Hin Hne].
  apply in_map_iff in Hin. destruct Hin as [piece [<- Hp]].
  split; [apply truthy_true_iff; exact Hne | ].
  split; [apply trim_idempotent | ].
  destruct (split_spec comma raw) as [_ [Hf _]].
  rewrite Forall_forall in Hf. specialize (Hf _ Hp).
  intros Hc. apply Hf.
  destruct (trim_spec piece) as [[a [b [E _]]] _]. rewrite E.
  apply in_or_app. right. apply in_or_app. left. exact Hc.
Qed.

(* ================================================================== *)
(** * Loading the list *)
(* ================================================================== *)

Lemma status_to_string_examples :
  status_to_string 500 = lit "500"
  /\ status_to_string 404 = lit "404"
  /\ status_to_string 0 = lit "0".
Proof. repeat split. Qed.

(** C7. A load that fails, because the request is rejected, because the
    status is not 2xx or because the body does not parse, stores a
    message made from the exception or from the status code, leaves the
    list as it was and clears the loading flag. *)
Theorem C7_load_failure (env : Env) (st : State) :
  (forall e,
      fetch env (get_request env) = Rejected e ->
      error (fst (load env st)) = message e
      /\ items (fst (load env st)) = items st
      /\ loading (fst (load env st)) = false)
  /\ (forall res,
         fetch env (get_request env) = Resolved res ->
         ok res = false ->
         error (fst (load env st)) =
           lit "Failed: " ++ status_to_string (status res)
         /\ items (fst (load env st)) = items st
         /\ loading (fst (load env st)) = false)
  /\ (forall res e,
         fetch env (get_request env) = Resolved res ->
         ok res = true ->
         res_json res = inl e ->
         error (fst (load env st)) = message e
         /\ items (fst (load env st)) = items st
         /\ loading (fst (load env st)) = false).
Proof.
  split; [ | split].
  - intros e H. rewrite load_state, H. repeat split.
  - intros res H Hok. rewrite load_state, H, Hok. repeat split.
  - intros res e H Hok Hj. rewrite load_state, H, Hok, Hj. repeat split.
Qed.

Lemma C7_load_failure_witness :
  fetch backend_list_down (get_request backend_list_down) =
    responds 500 (inr (JArray [stored_review]))
  /\ ok {| status := 500; res_json := inr (JArray [stored_review]) |} = false
  /\ error (fst (load backend_list_down initial_state)) =
       lit "Failed: " ++ status_to_string 500
  /\ items (fst (load backend_list_down initial_state)) =
       items initial_state
  /\ loading (fst (load backend_list_down initial_state)) = false.
Proof.
  split; [reflexivity | split; [reflexivity | ]].
  exact (proj1 (proj2 (C7_load_failure backend_list_down initial_state))
               _ eq_refl eq_refl).
Defined.

(** The three failures on the sample backends, from the state the
    component is mounted with. *)
Example load_failures :
  load backend_list_down initial_state =
    (settled default_form false (lit "Failed: 500") [] (JArray []) false,
     [get_request backend_list_down])
  /\ load backend_unreachable initial_state =
       (settled default_form false (lit "Failed to fetch") [] (JArray [])
                false,
        [get_request backend_unreachable])
  /\ load backend_garbled initial_state =
       (settled default_form false (lit "Unexpected token < in JSON") []
                (JArray []) false,
        [get_request backend_garbled]).
Proof. repeat split. Qed.

(** A load that succeeds replaces the list and touches no message. *)
Lemma load_success (env : Env) (st : State) (res : Response) (data : json) :
  fetch env (get_request env) = Resolved res ->
  ok res = true ->
  res_json res = inr data ->
  fst (load env st) =
    settled (form st) (submitting st) (error st) (success st) data false.
Proof.
  intros H Hok Hj. rewrite load_state, H, Hok, Hj. reflexivity.
Qed.

(* ================================================================== *)
(** * After the request *)
(* ================================================================== *)

(** The POST is issued exactly when both checks pass. *)
Lemma post_issued_iff (engine : Engine) (env : Env) (st : State) :
  In (post_request env (form st)) (snd (submit engine env st))
  <-> passes_validation (form st) = true.
Proof.
  destruct (submit_requests engine env st) as [[Hv E] | [Hv [E | E]]];
    rewrite E, Hv; simpl; split; auto; discriminate.
Qed.

(** C5. A POST answered with a status that is not 2xx leaves the list
    and the form fields as they were and is followed by no reload; and on
    every path [onSubmit] ends with the submitting flag cleared. *)
Theorem C5_refused_post_frame (engine : Engine) (env : Env) (st : State) :
  submitting (fst (submit engine env st)) = false
  /\ (forall res,
         In (post_request env (form st)) (snd (submit engine env st)) ->
         fetch env (post_request env (form st)) = Resolved res ->
         ok res = false ->
         items (fst (submit engine env st)) = items st
         /\ form (fst (submit engine env st)) = form st
         /\ snd (submit engine env st) = [post_request env (form st)]
         /\ submitting (fst (submit engine env st)) = false).
Proof.
  split.
  - destruct (submit_path engine env st); reflexivity.
  - intros res Hin H Hok. apply post_issued_iff in Hin.
    rewrite (submit_post_not_ok engine env _ _ Hin H Hok).
    repeat split.
Qed.

Lemma C5_refused_post_frame_witness :
  In (post_request (backend_refusing (JString (lit "Title already exists")))
                   (form (showing (filled_form (lit "8")))))
     (snd (submit sample_engine
                  (backend_refusing (JString (lit "Title already exists")))
                  (showing (filled_form (lit "8")))))
  /\ ok {| status := 400;
           res_json :=
             inr (JObject [(lit "detail",
                            JString (lit "Title already exists"))]) |}
     = false
  /\ items (fst (submit sample_engine
                        (backend_refusing
                           (JString (lit "Title already exists")))
                        (showing (filled_form (lit "8"))))) =
       items (showing (filled_form (lit "8")))
  /\ form (fst (submit sample_engine
                       (backend_refusing
                          (JString (lit "Title already exists")))
                       (showing (filled_form (lit "8"))))) =
       form (showing (filled_form (lit "8")))
  /\ snd (submit sample_engine
                 (backend_refusing (JString (lit "Title already exists")))
                 (showing (filled_form (lit "8")))) =
       [post_request
          (backend_refusing (JString (lit "Title already exists")))
          (form (showing (filled_form (lit "8"))))]
  /\ submitting (fst (submit sample_engine
                             (backend_refusing
                                (JString (lit "Title already exists")))
                             (showing (filled_form (lit "8"))))) = false.
Proof.
  assert (Hin :
    In (post_request
          (backend_refusing (JString (lit "Title already exists")))
          (form (showing (filled_form (lit "8")))))
       (snd (submit sample_engine
                    (backend_refusing (JString (lit "Title already exists")))
                    (showing (filled_form (lit "8"))))))
    by (left; reflexivity).
  split; [exact Hin | split; [reflexivity | ]].
  exact (proj2 (C5_refused_post_frame
                  sample_engine
                  (backend_refusing (JString (lit "Title already exists")))
                  (showing (filled_form (lit "8"))))
               _ Hin eq_refl eq_refl).
Defined.

(** The refusal of testable property 6: the detail is shown, the list
    is not refreshed, the flag is cleared. *)
Example refused_title :
  submit sample_engine
         (backend_refusing (JString (lit "Title already exists")))
         (showing (filled_form (lit "8"))) =
    (settled (filled_form (lit "8")) false (lit "Title already exists") []
             (JArray []) false,
     [post_request (backend_refusing (JString (lit "Title already exists")))
                   (filled_form (lit "8"))]).
Proof. vm_compute. reflexivity. Qed.

(** A rejected request also ends with the flag cleared and the message
    of the exception. *)
Example unreachable_backend :
  fst (submit sample_engine backend_unreachable
              (showing (filled_form (lit "8")))) =
    settled (filled_form (lit "8")) false (lit "Failed to fetch") []
            (JArray []) false.
Proof. vm_compute. reflexivity. Qed.

Lemma load_failed (env : Env) (st : State) (msg : jsstring) :
  load_failure env = Some msg ->
  fst (load env st) =
    settled (form st) (submitting st) msg (success st) (items st) false.
Proof.
  unfold load_failure. rewrite load_state.
  destruct (fetch env (get_request env)) as [e | res].
  - intros E. inversion E. reflexivity.
  - destruct (ok res).
    + destruct (res_json res) as [e | data]; intros E;
        [inversion E; reflexivity | discriminate].
    + intros E. inversion E. reflexivity.
Qed.

Lemma load_succeeded (env : Env) (st : State) :
  load_failure env = None ->
  exists data,
    fst (load env st) =
      settled (form st) (submitting st) (error st) (success st) data false.
Proof.
  unfold load_failure. rewrite load_state.
  destruct (fetch env (get_request env)) as [e | res]; [discriminate | ].
  destruct (ok res); [ | discriminate].
  destruct (res_json res) as [e | data]; [discriminate | ].
  intros _. exists data. reflexivity.
Qed.

(** With the sample form and a body [{"detail": ""}] the message is the
    generic one, not the detail. *)
Lemma C6_counterexample :
  snd (submit sample_engine (backend_refusing (JString []))
              (showing (filled_form (lit "8")))) =
    [post_request (backend_refusing (JString [])) (filled_form (lit "8"))]
  /\ fetch (backend_refusing (JString []))
           (post_request (backend_refusing (JString []))
                         (filled_form (lit "8"))) =
       responds 400 (inr (JObject [(lit "detail", JString [])]))
  /\ lookup (lit "detail") [(lit "detail", JString [])] = Some (JString [])
  /\ error (fst (submit sample_engine (backend_refusing (JString []))
                        (showing (filled_form (lit "8"))))) =
       lit "Failed to save review"
  /\ error (fst (submit sample_engine (backend_refusing (JString []))
                        (showing (filled_form (lit "8"))))) <> [].
Proof.
  repeat split; try (vm_compute; reflexivity).
  vm_compute. discriminate.
Qed.

(** C6, as the code has it. After a POST answered with a status that is
    not 2xx: a body that parses to an object whose [detail] is a string
    that is not empty gives that string as the message; a body that does
    not parse, an object without [detail] or with a falsy one, and a body
    that is a string, a number, a boolean or an array give "Failed to save
    review". *)
Theorem C6_error_detail (engine : Engine) (env : Env) (st : State)
        (res : Response) :
  In (post_request env (form st)) (snd (submit engine env st)) ->
  fetch env (post_request env (form st)) = Resolved res ->
  ok res = false ->
  (forall props d,
      res_json res = inr (JObject props) ->
      lookup (lit "detail") props = Some (JString d) ->
      d <> [] ->
      error (fst (submit engine env st)) = d)
  /\ (forall props,
         res_json res = inr (JObject props) ->
         Json.truthy (lookup (lit "detail") props) = false ->
         error (fst (submit engine env st)) = lit "Failed to save review")
  /\ (forall e,
         res_json res = inl e ->
         error (fst (submit engine env st)) = lit "Failed to save review")
  /\ (forall v,
         res_json res = inr v ->
         (exists b, v = JBool b) \/ (exists n, v = JNumber n)
         \/ (exists s, v = JString s) \/ (exists l, v = JArray l) ->
         error (fst (submit engine env st)) = lit "Failed to save review").
Proof.
  intros Hin H Hok. apply post_issued_iff in Hin.
  rewrite (submit_post_not_ok engine env _ _ Hin H Hok).
  cbn [fst error settled]. unfold save_failure, error_body.
  split; [ | split; [ | split]].
  - intros props d Hj Hd Hne. rewrite Hj, Hd.
    destruct d as [|c d]; [congruence | reflexivity].
  - intros props Hj Hf. rewrite Hj. unfold js_or.
    destruct (lookup (lit "detail") props) as [j | ]; [ | reflexivity].
    rewrite Hf. reflexivity.
  - intros e Hj. rewrite Hj. reflexivity.
  - intros v Hj [[b E] | [[n E] | [[s E] | [l E]]]]; rewrite Hj, E;
      reflexivity.
Qed.

Lemma C6_error_detail_witness :
  In (post_request (backend_refusing (JString (lit "Title already exists")))
                   (form (showing (filled_form (lit "8")))))
     (snd (submit sample_engine
                  (backend_refusing (JString (lit "Title already exists")))
                  (showing (filled_form (lit "8")))))
  /\ ok {| status := 400;
           res_json :=
             inr (JObject [(lit "detail",
                            JString (lit "Title already exists"))]) |}
     = false
  /\ error (fst (submit sample_engine
                        (backend_refusing
                           (JString (lit "Title already exists")))
                        (showing (filled_form (lit "8"))))) =
       lit "Title already exists".
Proof.
  assert (Hin :
    In (post_request
          (backend_refusing (JString (lit "Title already exists")))
          (form (showing (filled_form (lit "8")))))
       (snd (submit sample_engine
                    (backend_refusing (JString (lit "Title already exists")))
                    (showing (filled_form (lit "8"))))))
    by (left; reflexivity).
  split; [exact Hin | split; [reflexivity | ]].
  refine (proj1 (C6_error_detail sample_engine
                   (backend_refusing (JString (lit "Title already exists")))
                   (showing (filled_form (lit "8"))) _ Hin eq_refl eq_refl)
                _ (lit "Title already exists") eq_refl eq_refl _).
  vm_compute. discriminate.
Defined.

(** What the message is when the body is [null], or when [detail] is
    neither a string nor falsy, depends on the engine. *)
Example refused_with_null_body :
  error (fst (submit sample_engine
                     (backend (responds 500 (inr JNull))
                              (responds 200 (inr (JArray []))))
                     (showing (filled_form (lit "8"))))) =
    null_property_message sample_engine.
Proof. vm_compute. reflexivity. Qed.

Example refused_with_detail_list (engine : Engine) :
  error (fst (submit engine
                     (backend_refusing
                        (JArray [JObject [(lit "msg", JString (lit "bad"))];
                                 JObject []]))
                     (showing (filled_form (lit "8"))))) =
    lit "[object Object],[object Object]".
Proof. vm_compute. reflexivity. Qed.

(** The backend accepts the POST and answers the GET that follows with
    status 500 and a list in its body: the list of the state stays the old
    one. *)
Lemma C4_counterexample :
  snd (submit sample_engine backend_list_down
              (showing (filled_form (lit "8")))) =
    [post_request backend_list_down (filled_form (lit "8"));
     get_request backend_list_down]
  /\ fetch backend_list_down
           (post_request backend_list_down (filled_form (lit "8"))) =
       responds 201 (inr stored_review)
  /\ fetch backend_list_down (get_request backend_list_down) =
       responds 500 (inr (JArray [stored_review]))
  /\ success (fst (submit sample_engine backend_list_down
                          (showing (filled_form (lit "8"))))) = lit "Saved!"
  /\ items (fst (submit sample_engine backend_list_down
                        (showing (filled_form (lit "8"))))) = JArray []
  /\ items (fst (submit sample_engine backend_list_down
                        (showing (filled_form (lit "8"))))) <>
       JArray [stored_review].
Proof.
  repeat split; try (vm_compute; reflexivity).
  vm_compute. discriminate.
Qed.

(** C4, as the code has it. After a POST answered with a 2xx status the
    success message is "Saved!", the form is back to its defaults, and the
    list is loaded again: when that GET succeeds the list becomes its
    body, and when it fails the list stays as it was and the failure is
    the error message. *)
Theorem C4_saved_then_reload (engine : Engine) (env : Env) (st : State)
        (res : Response) :
  In (post_request env (form st)) (snd (submit engine env st)) ->
  fetch env (post_request env (form st)) = Resolved res ->
  ok res = true ->
  success (fst (submit engine env st)) = lit "Saved!"
  /\ form (fst (submit engine env st)) = default_form
  /\ rating (form (fst (submit engine env st))) = FNumber (of_Z 7)
  /\ snd (submit engine env st) =
       [post_request env (form st); get_request env]
  /\ (forall res' data,
         fetch env (get_request env) = Resolved res' ->
         ok res' = true ->
         res_json res' = inr data ->
         items (fst (submit engine env st)) = data
         /\ error (fst (submit engine env st)) = [])
  /\ (forall msg,
         load_failure env = Some msg ->
         items (fst (submit engine env st)) = items st
         /\ error (fst (submit engine env st)) = msg).
Proof.
  intros Hin H Hok. apply post_issued_iff in Hin.
  rewrite (submit_post_ok engine env _ _ Hin H Hok). cbn zeta.
  cbn [fst snd]. rewrite load_state.
  split; [ | split; [ | split; [ | split; [ | split]]]].
  - destruct (fetch env (get_request env)) as [e | r]; [reflexivity | ].
    destruct (ok r); [ | reflexivity].
    destruct (res_json r); reflexivity.
  - destruct (fetch env (get_request env)) as [e | r]; [reflexivity | ].
    destruct (ok r); [ | reflexivity].
    destruct (res_json r); reflexivity.
  - destruct (fetch env (get_request env)) as [e | r]; [reflexivity | ].
    destruct (ok r); [ | reflexivity].
    destruct (res_json r); reflexivity.
  - reflexivity.
  - intros res' data Hg Hok' Hj. rewrite Hg, Hok', Hj. split; reflexivity.
  - intros msg Hf. rewrite <- load_state.
    rewrite (load_failed env _ msg Hf). split; reflexivity.
Qed.

Lemma C4_saved_then_reload_witness :
  In (post_request backend_accepting
                   (form (showing (filled_form (lit "8")))))
     (snd (submit sample_engine backend_accepting
                  (showing (filled_form (lit "8")))))
  /\ ok {| status := 201; res_json := inr stored_review |} = true
  /\ success (fst (submit sample_engine backend_accepting
                          (showing (filled_form (lit "8"))))) = lit "Saved!"
  /\ form (fst (submit sample_engine backend_accepting
                       (showing (filled_form (lit "8"))))) = default_form.
Proof.
  assert (Hin :
    In (post_request backend_accepting
                     (form (showing (filled_form (lit "8")))))
       (snd (submit sample_engine backend_accepting
                    (showing (filled_form (lit "8"))))))
    by (left; reflexivity).
  split; [exact Hin | split; [reflexivity | ]].
  pose proof (C4_saved_then_reload sample_engine backend_accepting
                (showing (filled_form (lit "8"))) _ Hin eq_refl eq_refl)
    as [Hs [Hf _]].
  split; [exact Hs | exact Hf].
Defined.

(** The success flow of testable property 5. *)
Example saved_and_listed :
  submit sample_engine backend_accepting (showing (filled_form (lit "8"))) =
    (settled default_form false [] (lit "Saved!") (JArray [stored_review])
             false,
     [post_request backend_accepting (filled_form (lit "8"));
      get_request backend_accepting]).
Proof. vm_compute. reflexivity. Qed.

(* ================================================================== *)
(** * The two messages over a session *)
(* ================================================================== *)

(** After the session [session_list_down] both messages are shown; and
    after [session_reload_after_error] the error of the failed submit is
    still shown although the load that followed succeeded. *)
Lemma C9_counterexample :
  (error (perform_all sample_engine session_list_down initial_state) =
     lit "Failed: 500"
   /\ success (perform_all sample_engine session_list_down initial_state) =
        lit "Saved!"
   /\ ~ one_message
          (perform_all sample_engine session_list_down initial_state))
  /\ (load_failure backend_accepting = None
      /\ error (perform_all sample_engine session_reload_after_error
                            initial_state) =
           lit "Please provide at least a title and your review.").
Proof.
  split; [split; [ | split] | split]; try (vm_compute; reflexivity).
  intros [H | H]; vm_compute in H; discriminate.
Qed.

Section Messages.

Variable engine : Engine.

Lemma perform_keeps_one_message (st : State) (op : Operation) :
  one_message st ->
  load_is_quiet engine st op ->
  one_message (perform engine st op).
Proof.
  unfold one_message. intros Hone Hq.
  destruct op as [name value | env | env]; cbn [perform load_is_quiet] in *.
  - exact Hone.
  - destruct (load_failure env) as [msg | ] eqn:Hf.
    + rewrite (load_failed env st msg Hf). cbn [settled error success].
      destruct Hq as [Hq | Hq]; [right; exact Hq | discriminate].
    + destruct (load_succeeded env st Hf) as [data E]. rewrite E.
      exact Hone.
  - destruct (submit_path engine env st)
      as [H1 | H1 H2 | e Hv H | res Hv H Hok | res st1 Hv H Hok E];
      cbn [fst snd settled error success] in *;
      try (right; reflexivity).
    assert (Hf : load_failure env = None)
      by (apply Hq; right; left; reflexivity).
    destruct (load_succeeded
                env (settled default_form true [] (lit "Saved!") (items st)
                             (loading st)) Hf) as [data E'].
    rewrite E' in E. subst st1. left. reflexivity.
Qed.

Lemma loads_are_quiet_app (ops1 ops2 : list Operation) (st : State) :
  loads_are_quiet engine (ops1 ++ ops2) st ->
  loads_are_quiet engine ops1 st.
Proof.
  revert st. induction ops1 as [|op ops1 IH]; intros st; simpl.
  - intros _. exact I.
  - intros [H1 H2]. split; [exact H1 | exact (IH _ H2)].
Qed.

Lemma perform_all_keeps_one_message (ops : list Operation) (st : State) :
  one_message st ->
  loads_are_quiet engine ops st ->
  one_message (perform_all engine ops st).
Proof.
  revert st. induction ops as [|op ops IH]; intros st Hone Hq.
  - exact Hone.
  - destruct Hq as [H1 H2]. unfold perform_all. simpl.
    apply IH; [ | exact H2].
    apply perform_keeps_one_message; assumption.
Qed.

(** What a submit shows depends on the form and the backend, not on the
    messages that were shown before. *)
Lemma submit_overwrites (env : Env) (st1 st2 : State) :
  form st1 = form st2 ->
  error (fst (submit engine env st1)) = error (fst (submit engine env st2))
  /\ success (fst (submit engine env st1)) =
       success (fst (submit engine env st2)).
Proof.
  intros Ef.
  destruct (submit_path engine env st1)
    as [H1 | H1 H2 | e Hv H | res Hv H Hok | res st1' Hv H Hok E];
    rewrite Ef in *.
  - rewrite (submit_required_missing engine env _ H1). split; reflexivity.
  - rewrite (submit_rating_rejected engine env _ H1 H2). split; reflexivity.
  - rewrite (submit_post_rejected engine env _ _ Hv H). split; reflexivity.
  - rewrite (submit_post_not_ok engine env _ _ Hv H Hok). split; reflexivity.
  - rewrite (submit_post_ok engine env _ _ Hv H Hok). subst st1'.
    cbn zeta. cbn [fst]. rewrite !load_state.
    destruct (fetch env (get_request env)) as [e | r];
      [split; reflexivity | ].
    destruct (ok r); [ | split; reflexivity].
    destruct (res_json r); split; reflexivity.
Qed.

End Messages.

(** C9, as the code has it. Along every sequence of changes, loads and
    submits in which no load fails while a success message is set, at
    every point at most one of the two messages is not empty. A submit
    replaces both messages whatever they were; a load leaves the success
    message alone and replaces the error message only when it fails. *)
Theorem C9_messages (engine : Engine) :
  (forall ops1 ops2 st,
      one_message st ->
      loads_are_quiet engine (ops1 ++ ops2) st ->
      one_message (perform_all engine ops1 st))
  /\ one_message initial_state
  /\ (forall env st1 st2,
         form st1 = form st2 ->
         error (fst (submit engine env st1)) =
           error (fst (submit engine env st2))
         /\ success (fst (submit engine env st1)) =
              success (fst (submit engine env st2)))
  /\ (forall env st,
         success (fst (load env st)) = success st
         /\ (forall msg,
                load_failure env = Some msg ->
                error (fst (load env st)) = msg)
         /\ (load_failure env = None ->
             error (fst (load env st)) = error st)).
Proof.
  split; [ | split; [ | split]].
  - intros ops1 ops2 st Hone Hq.
    apply perform_all_keeps_one_message; [exact Hone | ].
    exact (loads_are_quiet_app engine _ _ _ Hq).
  - left. reflexivity.
  - intros env st1 st2. apply submit_overwrites.
  - intros env st. split; [ | split].
    + destruct (load_failure env) as [msg | ] eqn:Hf.
      * rewrite (load_failed env st msg Hf). reflexivity.
      * destruct (load_succeeded env st Hf) as [data E]. rewrite E.
        reflexivity.
    + intros msg Hf. rewrite (load_failed env st msg Hf). reflexivity.
    + intros Hf. destruct (load_succeeded env st Hf) as [data E].
      rewrite E. reflexivity.
Qed.

Lemma session_quiet_is_quiet :
  loads_are_quiet sample_engine session_quiet initial_state.
Proof.
  simpl. repeat split; auto; intros _; reflexivity.
Qed.

Lemma C9_messages_witness :
  one_message initial_state
  /\ loads_are_quiet sample_engine (session_quiet ++ []) initial_state
  /\ one_message (perform_all sample_engine session_quiet initial_state).
Proof.
  assert (H0 : one_message initial_state) by (left; reflexivity).
  assert (Hq : loads_are_quiet sample_engine (session_quiet ++ [])
                               initial_state)
    by (simpl; repeat split; auto; intros _; reflexivity).
  split; [exact H0 | split; [exact Hq | ]].
  exact (proj1 (C9_messages sample_engine) session_quiet [] initial_state
               H0 Hq).
Defined.

(** Where the quiet session ends: the second submit found the form
    reset, so it reports the missing title, and "Saved!" is gone. *)
Example session_quiet_end :
  perform_all sample_engine session_quiet initial_state =
    settled default_form false
            (lit "Please provide at least a title and your review.") []
            (JArray [stored_review]) false.
Proof. vm_compute. reflexivity. Qed.

(* ================================================================== *)
(** * Comparing Numbers *)
(* ================================================================== *)

Lemma SFcompare_antisym (x y : number) (c : comparison) :
  SFcompare x y = Some c -> SFcompare y x = Some (CompOpp c).
Proof.
  destruct x as [sx | sx | | sx mx ex], y as [sy | sy | | sy my ey];
    simpl; try discriminate;
    try (intros E; inversion E; reflexivity);
    try (destruct sx; intros E; inversion E; reflexivity);
    try (destruct sy; intros E; inversion E; reflexivity);
    try (destruct sx, sy; intros E; inversion E; reflexivity).
  destruct sx, sy; intros E; inversion E as [E']; clear E E'; f_equal;
    try reflexivity.
  - rewrite (Z.compare_antisym ex ey).
    destruct (ex ?= ey)%Z; simpl; try reflexivity.
    rewrite (Pos.compare_cont_antisym mx my Eq). reflexivity.
  - rewrite (Z.compare_antisym ex ey).
    destruct (ex ?= ey)%Z; simpl; try reflexivity.
    rewrite (Pos.compare_cont_antisym mx my Eq). reflexivity.
Qed.

Lemma lt_antisym (x y : number) : lt x y = true -> lt y x = false.
Proof.
  unfold lt, SFltb. destruct (SFcompare x y) as [[ | | ] | ] eqn:E;
    try discriminate.
  intros _. rewrite (SFcompare_antisym _ _ _ E). reflexivity.
Qed.

(** Two Numbers that compare equal are the same, up to the sign of a
    zero. *)
Lemma SFcompare_Eq (x y : number) :
  SFcompare x y = Some Eq ->
  x = y \/ (exists s t, x = S754_zero s /\ y = S754_zero t).
Proof.
  destruct x as [sx | sx | | sx mx ex], y as [sy | sy | | sy my ey];
    simpl; intros E; try discriminate;
    try (right; eauto; fail);
    try (destruct sx; discriminate);
    try (destruct sy; discriminate);
    try (destruct sx, sy; try discriminate; left; reflexivity).
  destruct sx, sy; try discriminate;
    destruct (ex ?= ey)%Z eqn:Ee; try discriminate;
    left; apply Z.compare_eq in Ee; subst ey; inversion E as [Em].
  - apply (f_equal CompOpp) in Em. simpl in Em.
    rewrite CompOpp_involutive in Em.
    apply Pos.compare_eq in Em. subst. reflexivity.
  - apply Pos.compare_eq in Em. subst. reflexivity.
Qed.

(** A Number that is not [NaN] is below, above or equal to a given
    one that is not [NaN]. *)
Lemma lt_total (x y : number) :
  isNaN x = false -> isNaN y = false ->
  lt x y = true \/ lt y x = true \/ SFcompare x y = Some Eq.
Proof.
  intros Hx Hy. unfold lt, SFltb.
  destruct (SFcompare x y) as [[ | | ] | ] eqn:E.
  - right. right. reflexivity.
  - left. reflexivity.
  - right. left. rewrite (SFcompare_antisym _ _ _ E). reflexivity.
  - destruct x, y; simpl in *; try discriminate.
Qed.

Lemma gt_lt (x y : number) : gt x y = lt y x.
Proof. reflexivity. Qed.

Lemma lt_zero_lt_ten (x : number) :
  lt x (of_Z 0) = true -> lt x (of_Z 10) = true.
Proof.
  destruct x as [s | s | | s m e]; try discriminate.
  - destruct s; [reflexivity | discriminate].
  - destruct s; [reflexivity | discriminate].
Qed.

(* ================================================================== *)
(** * [StarRating] *)
(* ================================================================== *)

(** [Math.min(10, v)] and [Math.max(0, m)] without the bookkeeping. *)
Lemma Math_min_ten (v : number) :
  isNaN v = false ->
  Math_min (of_Z 10) v = if lt v (of_Z 10) then v else of_Z 10.
Proof.
  intros H. unfold Math_min. rewrite H.
  change (isNaN (of_Z 10)) with false. cbn [orb].
  change (min_step (S754_infinity false) (of_Z 10)) with (of_Z 10).
  unfold min_step.
  change (is_pos_zero (of_Z 10)) with false.
  rewrite andb_false_r. reflexivity.
Qed.

Lemma Math_max_zero (m : number) :
  isNaN m = false ->
  Math_max (of_Z 0) m = if gt m (of_Z 0) then m else of_Z 0.
Proof.
  intros H. unfold Math_max. rewrite H.
  change (isNaN (of_Z 0)) with false. cbn [orb].
  change (max_step (S754_infinity true) (of_Z 0)) with (of_Z 0).
  unfold max_step.
  change (is_neg_zero (of_Z 0)) with false.
  rewrite andb_false_r. reflexivity.
Qed.

Lemma clamped_eq (v : number) :
  isNaN v = false ->
  clamped (Some v) =
    if lt v (of_Z 10)
    then if gt v (of_Z 0) then v else of_Z 0
    else of_Z 10.
Proof.
  intros H. unfold clamped. rewrite (Math_min_ten v H).
  destruct (lt v (of_Z 10)).
  - apply Math_max_zero. exact H.
  - reflexivity.
Qed.

(** X1. [StarRating] never shows a rating outside 0..10: for a rating
    that is not NaN the value shown is neither NaN, nor below 0, nor
    above 10, nor a negative zero; a rating below 0 is shown as 0, one above
    10 as 10, an absent one as 0; NaN is shown as NaN. *)
Theorem X1_StarRating_clamps (v : number) :
  (isNaN v = true -> clamped (Some v) = NaN)
  /\ (isNaN v = false ->
      rating_rejected (clamped (Some v)) = false
      /\ is_neg_zero (clamped (Some v)) = false)
  /\ (lt v (of_Z 0) = true -> clamped (Some v) = of_Z 0)
  /\ (gt v (of_Z 10) = true -> clamped (Some v) = of_Z 10)
  /\ clamped None = of_Z 0.
Proof.
  split; [ | split; [ | split; [ | split]]].
  - destruct v; try discriminate. intros _. reflexivity.
  - intros H. rewrite (clamped_eq v H).
    destruct (lt v (of_Z 10)) eqn:H10; [ | split; reflexivity].
    destruct (gt v (of_Z 0)) eqn:H0; [ | split; reflexivity].
    split.
    + apply rating_rejected_false. split; [exact H | split].
      * apply lt_antisym. exact H0.
      * apply lt_antisym. exact H10.
    + destruct v as [[ | ] | | | ]; try reflexivity. discriminate.
  - intros H0.
    assert (H : isNaN v = false) by (destruct v; try reflexivity; discriminate).
    rewrite (clamped_eq v H), (lt_zero_lt_ten v H0).
    rewrite gt_lt, (lt_antisym _ _ H0). reflexivity.
  - intros H10.
    assert (H : isNaN v = false)
      by (destruct v as [ | | | [ | ] ? ?]; try reflexivity; discriminate).
    rewrite gt_lt in H10.
    rewrite (clamped_eq v H). rewrite (lt_antisym _ _ H10). reflexivity.
  - reflexivity.
Qed.

Lemma X1_StarRating_clamps_witness :
  lt (of_Z (-3)) (of_Z 0) = true
  /\ clamped (Some (of_Z (-3))) = of_Z 0.
Proof.
  split; [reflexivity | ].
  exact (proj1 (proj2 (proj2 (X1_StarRating_clamps (of_Z (-3))))) eq_refl).
Defined.

(** X2. A rating that [onSubmit] lets through is shown by [StarRating]
    as it is, but for a negative zero, which is shown as zero. *)
Theorem X2_accepted_rating_shown_as_is (v : number) :
  rating_rejected v = false ->
  clamped (Some v) = v \/ (v = neg_zero /\ clamped (Some v) = pos_zero).
Proof.
  intros H. apply rating_rejected_false in H. destruct H as [Hn [H0 H10]].
  rewrite (clamped_eq v Hn).
  destruct (lt v (of_Z 10)) eqn:L10.
  - destruct (gt v (of_Z 0)) eqn:G0; [left; reflexivity | ].
    destruct (lt_total v (of_Z 0) Hn eq_refl) as [L | [L | E]].
    + congruence.
    + rewrite gt_lt in G0. congruence.
    + destruct (SFcompare_Eq _ _ E) as [E' | [s [t [Es _]]]].
      * left. symmetry. exact E'.
      * subst v. destruct s; [right; split; reflexivity | left; reflexivity].
  - destruct (lt_total v (of_Z 10) Hn eq_refl) as [L | [L | E]].
    + congruence.
    + rewrite gt_lt in H10. congruence.
    + destruct (SFcompare_Eq _ _ E) as [E' | [s [t [_ Et]]]].
      * left. symmetry. exact E'.
      * discriminate.
Qed.

Lemma X2_accepted_rating_shown_as_is_witness :
  rating_rejected (StringToNumber (lit "7.5")) = false
  /\ (clamped (Some (StringToNumber (lit "7.5"))) =
        StringToNumber (lit "7.5")
      \/ (StringToNumber (lit "7.5") = neg_zero
          /\ clamped (Some (StringToNumber (lit "7.5"))) = pos_zero)).
Proof.
  split; [reflexivity | ].
  apply (X2_accepted_rating_shown_as_is (StringToNumber (lit "7.5"))).
  reflexivity.
Defined.

(* ================================================================== *)
(** * More on [loadReviews] *)
(* ================================================================== *)

Lemma loaded_list_some (env : Env) (st : State) (data : json) :
  loaded_list env = Some data ->
  fst (load env st) =
    settled (form st) (submitting st) (error st) (success st) data false.
Proof.
  unfold loaded_list. rewrite load_state.
  destruct (fetch env (get_request env)) as [e | res]; [discriminate | ].
  destruct (ok res); [ | discriminate].
  destruct (res_json res) as [e | d]; [discriminate | ].
  intros E. inversion E. reflexivity.
Qed.

Lemma loaded_or_failed (env : Env) :
  (exists data, loaded_list env = Some data /\ load_failure env = None)
  \/ (exists msg, load_failure env = Some msg /\ loaded_list env = None).
Proof.
  unfold loaded_list, load_failure.
  destruct (fetch env (get_request env)) as [e | res]; [right; eauto | ].
  destruct (ok res); [ | right; eauto].
  destruct (res_json res) as [e | d]; [right; eauto | left; eauto].
Qed.

(** X3. A load whose GET is answered 2xx with a body that parses makes
    that body the list, whatever the list was: after two loads in a row
    the list is the body of the second, with nothing of the first. It
    leaves both messages, the form and the submitting flag alone and
    clears the loading flag. *)
Theorem X3_load_replaces_list (env : Env) (st : State) (res : Response)
        (data : json) :
  fetch env (get_request env) = Resolved res ->
  ok res = true ->
  res_json res = inr data ->
  fst (load env st) =
    settled (form st) (submitting st) (error st) (success st) data false
  /\ (forall env0, items (fst (load env (fst (load env0 st)))) = data).
Proof.
  intros H Hok Hj.
  assert (Hl : loaded_list env = Some data)
    by (unfold loaded_list; rewrite H, Hok, Hj; reflexivity).
  split.
  - apply loaded_list_some. exact Hl.
  - intros env0. rewrite (loaded_list_some env _ data Hl). reflexivity.
Qed.

Lemma X3_load_replaces_list_witness :
  fetch backend_accepting (get_request backend_accepting) =
    responds 200 (inr (JArray [stored_review]))
  /\ ok {| status := 200; res_json := inr (JArray [stored_review]) |} = true
  /\ items (fst (load backend_accepting
                      (fst (load (backend (Rejected (Error []))
                                          (responds 200 (inr (JArray []))))
                                 initial_state)))) =
       JArray [stored_review].
Proof.
  split; [reflexivity | split; [reflexivity | ]].
  exact (proj2 (X3_load_replaces_list backend_accepting initial_state
                  _ _ eq_refl eq_refl eq_refl)
               (backend (Rejected (Error []))
                        (responds 200 (inr (JArray []))))).
Defined.

Lemma load_keeps_form (env : Env) (st : State) :
  form (fst (load env st)) = form st.
Proof.
  destruct (loaded_or_failed env) as [[data [Hl _]] | [msg [Hf _]]].
  - rewrite (loaded_list_some env st data Hl). reflexivity.
  - rewrite (load_failed env st msg Hf). reflexivity.
Qed.

(** X4. Every load issues exactly one request, the GET of the reviews
    address, and ends with the loading flag cleared; it never touches the
    form, the submitting flag or the success message; and it either
    replaces the list and keeps the error message, or keeps the list and
    replaces the error message. *)
Theorem X4_load_frame (env : Env) (st : State) :
  snd (load env st) = [Get (baseUrl env ++ lit "/api/reviews")]
  /\ loading (fst (load env st)) = false
  /\ form (fst (load env st)) = form st
  /\ submitting (fst (load env st)) = submitting st
  /\ success (fst (load env st)) = success st
  /\ ((loaded_list env = Some (items (fst (load env st)))
       /\ error (fst (load env st)) = error st)
      \/ (load_failure env = Some (error (fst (load env st)))
          /\ items (fst (load env st)) = items st)).
Proof.
  split; [apply load_requests | ].
  destruct (loaded_or_failed env) as [[data [Hl _]] | [msg [Hf _]]].
  - rewrite (loaded_list_some env st data Hl). cbn [settled loading form
      submitting success items error].
    repeat split. left. split; [exact Hl | reflexivity].
  - rewrite (load_failed env st msg Hf). cbn [settled loading form
      submitting success items error].
    repeat split. right. split; [exact Hf | reflexivity].
Qed.

(* ================================================================== *)
(** * More on [onSubmit] *)
(* ================================================================== *)

Lemma baseUrl_default (env : Env) :
  VITE_BACKEND_URL env = None \/ VITE_BACKEND_URL env = Some [] ->
  baseUrl env = lit "http://localhost:8000".
Proof.
  unfold baseUrl. intros [E | E]; rewrite E; reflexivity.
Qed.

Lemma baseUrl_set (env : Env) (u : jsstring) :
  VITE_BACKEND_URL env = Some u -> u <> [] -> baseUrl env = u.
Proof.
  unfold baseUrl. intros E Hu. rewrite E.
  destruct u; [congruence | reflexivity].
Qed.

(** X5. Every request of a load or of a submit goes to the one address
    [base ++ "/api/reviews"], where [base] is the configured backend
    address, or [http://localhost:8000] when none is configured or the
    configured one is empty; the POST says its body is JSON. *)
Theorem X5_request_address (engine : Engine) (env : Env) (st : State)
        (req : Request) :
  In req (snd (load env st)) \/ In req (snd (submit engine env st)) ->
  request_url req =
    match VITE_BACKEND_URL env with
    | Some (c :: u) => (c :: u) ++ lit "/api/reviews"
    | _ => lit "http://localhost:8000/api/reviews"
    end
  /\ (forall u h p,
         req = Post u h p ->
         h = [(lit "Content-Type", lit "application/json")]).
Proof.
  assert (Hurl : reviews_url env =
                 match VITE_BACKEND_URL env with
                 | Some (c :: u) => (c :: u) ++ lit "/api/reviews"
                 | _ => lit "http://localhost:8000/api/reviews"
                 end).
  { unfold reviews_url, baseUrl.
    destruct (VITE_BACKEND_URL env) as [[ | c u] | ]; reflexivity. }
  assert (Hreq : req = get_request env \/ req = post_request env (form st) ->
                 request_url req = reviews_url env
                 /\ (forall u h p,
                        req = Post u h p ->
                        h = [(lit "Content-Type", lit "application/json")])).
  { intros [E | E]; rewrite E; split; try reflexivity;
      unfold get_request, post_request; intros u h p E';
      [discriminate | inversion E'; reflexivity]. }
  rewrite <- Hurl. intros [H | H]; apply Hreq.
  - rewrite load_requests in H. destruct H as [H | []]. left. congruence.
  - destruct (submit_requests engine env st) as [[_ E] | [_ [E | E]]];
      rewrite E in H; simpl in H; intuition congruence.
Qed.

Lemma X5_request_address_witness :
  In (get_request backend_accepting)
     (snd (load backend_accepting initial_state))
  /\ request_url (get_request backend_accepting) =
       lit "http://localhost:8000/api/reviews".
Proof.
  assert (H : In (get_request backend_accepting)
                 (snd (load backend_accepting initial_state)))
    by (left; reflexivity).
  split; [exact H | ].
  exact (proj1 (X5_request_address sample_engine backend_accepting
                  initial_state (get_request backend_accepting)
                  (or_introl H))).
Defined.

Lemma accepted_is_finite (r : number) :
  rating_rejected r = false -> is_finite r = true.
Proof.
  destruct r as [s | [ | ] | | s m e]; try reflexivity; discriminate.
Qed.

Lemma or_null_not_empty (s : jsstring) : or_null s <> Some [].
Proof. destruct s; discriminate. Qed.

Lemma normalize_tags_clean (raw : jsstring) (l : list jsstring) :
  normalize_tags raw = Some l -> Forall clean_tag l.
Proof.
  intros H. apply kept_tags_clean in H. exact H.
Qed.

(** X6. What [onSubmit] never posts: a payload whose title or review
    is empty, whose rating is NaN, infinite, below 0 or above 10, whose
    [watched_on] or [poster_url] is the empty string, or one of whose tags
    is empty, has white space at an end or holds a comma. *)
Theorem X6_posted_payload_is_valid (engine : Engine) (env : Env)
        (st : State) (u : jsstring) (h : list (jsstring * jsstring))
        (p : Payload.t) :
  In (Post u h p) (snd (submit engine env st)) ->
  Payload.title p <> []
  /\ Payload.review p <> []
  /\ is_finite (Payload.rating p) = true
  /\ lt (Payload.rating p) (of_Z 0) = false
  /\ gt (Payload.rating p) (of_Z 10) = false
  /\ Payload.watched_on p <> Some []
  /\ Payload.poster_url p <> Some []
  /\ (forall l, Payload.tags p = Some l -> Forall clean_tag l).
Proof.
  intros H. pose proof (posted_payload engine env st u h p H) as E.
  assert (Hv : passes_validation (form st) = true).
  { destruct (submit_requests engine env st) as [[_ E0] | [Hv _]];
      [rewrite E0 in H; destruct H | exact Hv]. }
  apply passes_validation_true in Hv. destruct Hv as [H1 H2].
  apply required_missing_false in H1. destruct H1 as [Ht Hr].
  pose proof (accepted_is_finite _ H2) as Hfin.
  apply rating_rejected_false in H2. destruct H2 as [_ [H0 H10]].
  subst p. cbn [make_payload Payload.title Payload.review Payload.rating
                Payload.watched_on Payload.poster_url Payload.tags].
  repeat split; try assumption; try apply or_null_not_empty.
  intros l. apply normalize_tags_clean.
Qed.

Lemma X6_posted_payload_is_valid_witness :
  In (post_request backend_accepting (filled_form (lit "8")))
     (snd (submit sample_engine backend_accepting
                  (showing (filled_form (lit "8")))))
  /\ is_finite (Payload.rating (make_payload (filled_form (lit "8")))) = true.
Proof.
  assert (H : In (post_request backend_accepting (filled_form (lit "8")))
                 (snd (submit sample_engine backend_accepting
                              (showing (filled_form (lit "8"))))))
    by (left; reflexivity).
  split; [exact H | ].
  apply (X6_posted_payload_is_valid sample_engine backend_accepting
                                    (showing (filled_form (lit "8")))
                                    _ _ _ H).
Defined.

(** X7. The requests of one submit are, in order, nothing, or the POST,
    or the POST and then the GET of the reload; the GET is there exactly
    when the POST was issued and answered with a 2xx status. *)
Theorem X7_submit_requests (engine : Engine) (env : Env) (st : State) :
  (snd (submit engine env st) = []
   \/ snd (submit engine env st) = [post_request env (form st)]
   \/ snd (submit engine env st) =
        [post_request env (form st); get_request env])
  /\ (In (get_request env) (snd (submit engine env st))
      <-> (In (post_request env (form st)) (snd (submit engine env st))
           /\ exists res,
                fetch env (post_request env (form st)) = Resolved res
                /\ ok res = true)).
Proof.
  destruct (submit_path engine env st)
    as [H1 | H1 H2 | e Hv H | res Hv H Hok | res st1 Hv H Hok E];
    cbn [snd].
  - split; [left; reflexivity | split; [intros [] | intros [[] _]]].
  - split; [left; reflexivity | split; [intros [] | intros [[] _]]].
  - split; [right; left; reflexivity | split].
    + intros [E0 | []]. unfold post_request, get_request in E0.
      discriminate.
    + intros [_ [res [E0 _]]]. rewrite H in E0. discriminate.
  - split; [right; left; reflexivity | split].
    + intros [E0 | []]. unfold post_request, get_request in E0.
      discriminate.
    + intros [_ [res' [E0 Hok']]]. rewrite H in E0. inversion E0.
      subst res'. congruence.
  - split; [right; right; reflexivity | split].
    + intros _. split; [left; reflexivity | ].
      exists res. split; assumption.
    + intros _. right. left. reflexivity.
Qed.

(** X8. A submit that does not reach the reload, because a check
    stopped it, because the POST was rejected or because it was answered
    with a status that is not 2xx, leaves the form as the user filled it,
    the list and the loading flag as they were, and shows no success
    message; a submit that reaches the reload has put the form back to its
    defaults. A rejected POST shows the message of its exception. *)
Theorem X8_failed_submit_keeps_input (engine : Engine) (env : Env)
        (st : State) :
  (~ In (get_request env) (snd (submit engine env st)) ->
   form (fst (submit engine env st)) = form st
   /\ items (fst (submit engine env st)) = items st
   /\ loading (fst (submit engine env st)) = loading st
   /\ success (fst (submit engine env st)) = [])
  /\ (In (get_request env) (snd (submit engine env st)) ->
      form (fst (submit engine env st)) = default_form)
  /\ (forall e,
         In (post_request env (form st)) (snd (submit engine env st)) ->
         fetch env (post_request env (form st)) = Rejected e ->
         error (fst (submit engine env st)) = message e
         /\ snd (submit engine env st) = [post_request env (form st)]).
Proof.
  split; [ | split].
  - destruct (submit_path engine env st)
      as [H1 | H1 H2 | e Hv H | res Hv H Hok | res st1 Hv H Hok E];
      cbn [fst snd settled form items loading success]; intros Hn;
      try (repeat split; fail).
    exfalso. apply Hn. right. left. reflexivity.
  - destruct (submit_path engine env st)
      as [H1 | H1 H2 | e Hv H | res Hv H Hok | res st1 Hv H Hok E];
      cbn [fst snd settled form]; unfold get_request, post_request;
      simpl; try (intros []; fail); try (intros [E0 | []]; discriminate).
    intros _. subst st1. apply load_keeps_form.
  - intros e Hin H. apply post_issued_iff in Hin.
    rewrite (submit_post_rejected engine env _ _ Hin H). split; reflexivity.
Qed.

Lemma X8_failed_submit_keeps_input_witness :
  ~ In (get_request backend_unreachable)
       (snd (submit sample_engine backend_unreachable
                    (showing (filled_form (lit "8")))))
  /\ form (fst (submit sample_engine backend_unreachable
                       (showing (filled_form (lit "8"))))) =
       form (showing (filled_form (lit "8")))
  /\ items (fst (submit sample_engine backend_unreachable
                        (showing (filled_form (lit "8"))))) =
       items (showing (filled_form (lit "8")))
  /\ loading (fst (submit sample_engine backend_unreachable
                          (showing (filled_form (lit "8"))))) =
       loading (showing (filled_form (lit "8")))
  /\ success (fst (submit sample_engine backend_unreachable
                          (showing (filled_form (lit "8"))))) = [].
Proof.
  assert (Hn : ~ In (get_request backend_unreachable)
                    (snd (submit sample_engine backend_unreachable
                                 (showing (filled_form (lit "8"))))))
    by (intros [H | []]; vm_compute in H; discriminate).
  split; [exact Hn | ].
  exact (proj1 (X8_failed_submit_keeps_input
                  sample_engine backend_unreachable
                  (showing (filled_form (lit "8")))) Hn).
Defined.

(** X9. Submitting again right after a submit that was saved sends
    nothing: the form was put back to its defaults, so the second submit
    stops at the first check, whatever the backend would answer. *)
Theorem X9_resubmit_after_save (engine : Engine) (env env' : Env)
        (st : State) :
  In (get_request env) (snd (submit engine env st)) ->
  snd (submit engine env' (fst (submit engine env st))) = []
  /\ error (fst (submit engine env' (fst (submit engine env st)))) =
       lit "Please provide at least a title and your review."
  /\ success (fst (submit engine env' (fst (submit engine env st)))) = [].
Proof.
  intros H.
  assert (Hf : form (fst (submit engine env st)) = default_form).
  { destruct (submit_path engine env st)
      as [H1 | H1 H2 | e Hv H' | res Hv H' Hok | res st1 Hv H' Hok E];
      cbn [fst snd settled form] in *; unfold get_request, post_request in H;
      simpl in H; try (destruct H; fail);
      try (destruct H as [E0 | []]; discriminate).
    subst st1. apply load_keeps_form. }
  assert (Hm : required_missing (form (fst (submit engine env st))) = true)
    by (rewrite Hf; reflexivity).
  rewrite (submit_required_missing engine env' _ Hm).
  repeat split.
Qed.

Lemma X9_resubmit_after_save_witness :
  In (get_request backend_accepting)
     (snd (submit sample_engine backend_accepting
                  (showing (filled_form (lit "8")))))
  /\ snd (submit sample_engine backend_accepting
                 (fst (submit sample_engine backend_accepting
                              (showing (filled_form (lit "8")))))) = [].
Proof.
  assert (H : In (get_request backend_accepting)
                 (snd (submit sample_engine backend_accepting
                              (showing (filled_form (lit "8"))))))
    by (right; left; reflexivity).
  split; [exact H | ].
  exact (proj1 (X9_resubmit_after_save sample_engine backend_accepting
                  backend_accepting (showing (filled_form (lit "8"))) H)).
Defined.

(* ================================================================== *)
(** * Tags, there and back *)
(* ================================================================== *)

Lemma split_join (l : list jsstring) :
  l <> [] ->
  Forall (fun p => ~ In comma p) l ->
  split comma (join [comma] l) = l.
Proof.
  intros Hl Hc.
  apply (SplitOn_unique comma (join [comma] l)).
  - apply split_spec.
  - split; [exact Hl | split; [exact Hc | reflexivity]].
Qed.

Lemma join_truthy (l : list jsstring) :
  Forall clean_tag l -> l <> [] ->
  JsString.truthy (join [comma] l) = true.
Proof.
  intros Hc Hl. destruct l as [ | t l]; [congruence | ].
  inversion Hc as [ | ? ? [Ht _] _]; subst.
  destruct t as [ | c t]; [congruence | ].
  destruct l; reflexivity.
Qed.

Lemma normalize_join (l : list jsstring) :
  l <> [] ->
  Forall clean_tag l ->
  normalize_tags (join [comma] l) = Some l.
Proof.
  intros Hl Hc. unfold normalize_tags.
  rewrite (join_truthy l Hc Hl). f_equal.
  rewrite split_join.
  - clear Hl. induction Hc as [ | t l [Hn [Ht _]] _ IH]; [reflexivity | ].
    simpl. rewrite Ht.
    destruct t as [ | c t]; [congruence | ]. simpl. f_equal. exact IH.
  - exact Hl.
  - eapply Forall_impl; [ | exact Hc]. intros t [_ [_ H]]. exact H.
Qed.

(** X10. Tags survive the trip through the text field: a sequence of
    tags that is not empty, each of them not empty, without white space at
    its ends and without a comma, written with commas between them, is
    normalized back to itself. In particular the tags sent for a text,
    when there is at least one, are the tags sent for these tags joined by
    commas. *)
Theorem X10_tags_round_trip :
  (forall l : list jsstring,
      l <> [] ->
      Forall clean_tag l ->
      normalize_tags (join [comma] l) = Some l)
  /\ (forall (raw : jsstring) (l : list jsstring),
         normalize_tags raw = Some l ->
         l <> [] ->
         normalize_tags (join [comma] l) = Some l).
Proof.
  split.
  - exact normalize_join.
  - intros raw l H Hl. apply normalize_join; [exact Hl | ].
    exact (normalize_tags_clean raw l H).
Qed.

Lemma X10_tags_round_trip_witness :
  normalize_tags (lit " action ,, sci-fi,") =
    Some [lit "action"; lit "sci-fi"]
  /\ [lit "action"; lit "sci-fi"] <> []
  /\ normalize_tags (join [comma] [lit "action"; lit "sci-fi"]) =
       Some [lit "action"; lit "sci-fi"].
Proof.
  assert (H : normalize_tags (lit " action ,, sci-fi,") =
              Some [lit "action"; lit "sci-fi"]) by reflexivity.
  assert (Hl : [lit "action"; lit "sci-fi"] <> []) by discriminate.
  split; [exact H | split; [exact Hl | ]].
  exact (proj2 X10_tags_round_trip (lit " action ,, sci-fi,")
               [lit "action"; lit "sci-fi"] H Hl).
Defined.

(* ================================================================== *)
(** * [onChange] *)
(* ================================================================== *)

(** X11. [onChange] writes the named field and nothing else: the input
    then shows the text that was typed, every other input shows what it
    showed, the messages, the list and the flags are as they were, and no
    request is issued. *)
Theorem X11_onChange_writes_one_field (name : FieldName) (v : jsstring)
        (st : State) (log : list Request) :
  exists st',
    onChange name v st log = (Normal tt, st', log)
    /\ field_value name (form st') = FString v
    /\ (forall other,
           other <> name ->
           field_value other (form st') = field_value other (form st))
    /\ submitting st' = submitting st
    /\ error st' = error st
    /\ success st' = success st
    /\ items st' = items st
    /\ loading st' = loading st.
Proof.
  eexists. split; [reflexivity | ]. cbn [form submitting error success
                                         items loading].
  split; [destruct name; reflexivity | ].
  split; [ | repeat split].
  intros other Hne. destruct name, other; try reflexivity; congruence.
Qed.

(** X12. Typing twice into one input keeps the second text only, and
    typing into two different inputs gives the same form in either
    order. *)
Theorem X12_onChange_composes (name other : FieldName) (v w : jsstring)
        (f : FormState) :
  set_field name w (set_field name v f) = set_field name w f
  /\ (name <> other ->
      set_field name v (set_field other w f) =
        set_field other w (set_field name v f)).
Proof.
  split.
  - destruct name; reflexivity.
  - intros Hne. destruct name, other; try reflexivity; congruence.
Qed.

(** X13. The inputs the user leaves alone are sent as the defaults: with
    only a title and a review typed into the initial form, the POST
    carries the trimmed title and review, the rating 7, and null for
    [watched_on], [poster_url] and [tags]. *)
Theorem X13_untouched_fields_sent_as_defaults (engine : Engine) (env : Env)
        (st : State) (t r : jsstring) :
  form st = typed t r default_form ->
  trim t <> [] ->
  trim r <> [] ->
  exists rest,
    snd (submit engine env st) =
      Post (reviews_url env) [(lit "Content-Type", lit "application/json")]
           {| Payload.title := trim t;
              Payload.review := trim r;
              Payload.rating := of_Z 7;
              Payload.watched_on := None;
              Payload.poster_url := None;
              Payload.tags := None |} :: rest.
Proof.
  intros Ef Ht Hr.
  assert (H1 : required_missing (form st) = false).
  { apply required_missing_false. rewrite Ef. split; assumption. }
  assert (H2 : rating_rejected (Number (rating (form st))) = false)
    by (rewrite Ef; reflexivity).
  destruct (submit_reaches_post engine env st H1 H2) as [rest E].
  exists rest. rewrite E. unfold post_request. rewrite Ef. reflexivity.
Qed.

Lemma X13_untouched_fields_sent_as_defaults_witness :
  form (showing (typed (lit " Alien ") (lit "Tense.") default_form)) =
    typed (lit " Alien ") (lit "Tense.") default_form
  /\ trim (lit " Alien ") <> []
  /\ trim (lit "Tense.") <> []
  /\ exists rest,
       snd (submit sample_engine backend_accepting
                   (showing (typed (lit " Alien ") (lit "Tense.")
                                   default_form))) =
         Post (reviews_url backend_accepting)
              [(lit "Content-Type", lit "application/json")]
              {| Payload.title := trim (lit " Alien ");
                 Payload.review := trim (lit "Tense.");
                 Payload.rating := of_Z 7;
                 Payload.watched_on := None;
                 Payload.poster_url := None;
                 Payload.tags := None |} :: rest.
Proof.
  assert (Ht : trim (lit " Alien ") <> []) by (vm_compute; discriminate).
  assert (Hr : trim (lit "Tense.") <> []) by (vm_compute; discriminate).
  split; [reflexivity | split; [exact Ht | split; [exact Hr | ]]].
  exact (X13_untouched_fields_sent_as_defaults
           sample_engine backend_accepting
           (showing (typed (lit " Alien ") (lit "Tense.") default_form))
           (lit " Alien ") (lit "Tense.") eq_refl Ht Hr).
Defined.

(* ================================================================== *)
(** * Over a session *)
(* ================================================================== *)

Lemma load_flags (env : Env) (st : State) :
  loading (fst (load env st)) = false
  /\ submitting (fst (load env st)) = submitting st.
Proof.
  destruct (loaded_or_failed env) as [[data [Hl _]] | [msg [Hf _]]].
  - rewrite (loaded_list_some env st data Hl). split; reflexivity.
  - rewrite (load_failed env st msg Hf). split; reflexivity.
Qed.

Lemma perform_keeps_idle (engine : Engine) (st : State) (op : Operation) :
  loading st = false /\ submitting st = false ->
  loading (perform engine st op) = false
  /\ submitting (perform engine st op) = false.
Proof.
  intros [Hl Hs]. destruct op as [name v | env | env]; cbn [perform].
  - split; assumption.
  - destruct (load_flags env st) as [E1 E2]. rewrite E1, E2.
    split; [reflexivity | exact Hs].
  - destruct (submit_path engine env st)
      as [H1 | H1 H2 | e Hv H | res Hv H Hok | res st1 Hv H Hok E];
      cbn [fst settled loading submitting]; try (split; [exact Hl | reflexivity]).
    subst st1. split; [apply load_flags | reflexivity].
Qed.

(** X14. Once the load that runs at mounting is over, between any two
    operations the loading flag and the submitting flag are off: the list
    area never shows "Loading..." again and the button is enabled and
    reads "Save Review". *)
Theorem X14_idle_between_operations (engine : Engine) (env0 : Env)
        (ops : list Operation) :
  loading (perform_all engine ops (fst (mount env0))) = false
  /\ submitting (perform_all engine ops (fst (mount env0))) = false
  /\ listSection (perform_all engine ops (fst (mount env0))) <> ShowLoading
  /\ button_disabled (perform_all engine ops (fst (mount env0))) = false
  /\ button_label (perform_all engine ops (fst (mount env0))) =
       lit "Save Review".
Proof.
  assert (H : forall st,
             loading st = false /\ submitting st = false ->
             loading (perform_all engine ops st) = false
             /\ submitting (perform_all engine ops st) = false).
  { induction ops as [ | op ops IH]; intros st Hst; [exact Hst | ].
    unfold perform_all. simpl. apply IH.
    apply perform_keeps_idle. exact Hst. }
  destruct (H (fst (mount env0))) as [Hl Hs].
  { unfold mount. destruct (load_flags env0 initial_state) as [E1 E2].
    rewrite E1, E2. split; reflexivity. }
  unfold listSection, button_disabled, button_label. rewrite Hl, Hs.
  repeat split.
  destruct (items (perform_all engine ops (fst (mount env0))))
    as [ | | | [ | ] | [ | ] | props]; try discriminate.
  - destruct (review_cards (j :: l)); discriminate.
  - destruct (lookup (lit "length") props) as [[ | | [ | | | ] | | | ] | ];
      discriminate.
Qed.

Lemma perform_items (engine : Engine) (st : State) (op : Operation) :
  items (perform engine st op) = items st
  \/ exists env,
       In env (backends_of [op])
       /\ loaded_list env = Some (items (perform engine st op)).
Proof.
  assert (Hload : forall env s,
             items (fst (load env s)) = items s
             \/ loaded_list env = Some (items (fst (load env s)))).
  { intros env s.
    destruct (loaded_or_failed env) as [[data [Hl _]] | [msg [Hf _]]].
    - right. rewrite (loaded_list_some env s data Hl). exact Hl.
    - left. rewrite (load_failed env s msg Hf). reflexivity. }
  destruct op as [name v | env | env]; cbn [perform backends_of].
  - left. reflexivity.
  - destruct (Hload env st) as [E | E]; [left; exact E | right].
    exists env. split; [left; reflexivity | exact E].
  - destruct (submit_path engine env st)
      as [H1 | H1 H2 | e Hv H | res Hv H Hok | res st1 Hv H Hok E];
      cbn [fst settled items]; try (left; reflexivity).
    subst st1.
    destruct (Hload env (settled default_form true [] (lit "Saved!")
                                 (items st) (loading st))) as [E | E].
    + left. exact E.
    + right. exists env. split; [left; reflexivity | exact E].
Qed.

(** X15. The list is never patched: at any point of a session it is
    what it was at the start, or it is, whole, the body of a GET that one
    of the loads or submits of the session got answered with a 2xx status.
    From mounting on it is the empty list or such a body. *)
Theorem X15_list_is_a_fetched_body (engine : Engine) (ops : list Operation)
        (st : State) :
  items (perform_all engine ops st) = items st
  \/ exists env,
       In env (backends_of ops)
       /\ loaded_list env = Some (items (perform_all engine ops st)).
Proof.
  revert st. induction ops as [ | op ops IH]; intros st.
  - left. reflexivity.
  - unfold perform_all. simpl fold_left.
    fold (perform_all engine ops (perform engine st op)).
    assert (Hin : forall env,
               In env (backends_of [op]) \/ In env (backends_of ops) ->
               In env (backends_of (op :: ops))).
    { intros env. destruct op; simpl; tauto. }
    destruct (IH (perform engine st op)) as [E | [env [Hi E]]].
    + rewrite E. destruct (perform_items engine st op) as [E' | [env [Hi E']]].
      * left. exact E'.
      * right. exists env. split; [apply Hin; left; exact Hi | exact E'].
    + right. exists env. split; [apply Hin; right; exact Hi | exact E].
Qed.

(* ================================================================== *)
(** * The list on screen *)
(* ================================================================== *)





(** X17. When the load that runs at mounting fails, the list area shows
    the line for no reviews, not the failure: the failure is the error
    message, which the form shows. *)
Theorem X17_failed_first_load (env : Env) (msg : jsstring) :
  load_failure env = Some msg ->
  listSection (fst (mount env)) = ShowNoReviews
  /\ error (fst (mount env)) = msg
  /\ items (fst (mount env)) = JArray [].
Proof.
  intros Hf. unfold mount. rewrite (load_failed env _ msg Hf).
  repeat split.
Qed.

Lemma X17_failed_first_load_witness :
  load_failure backend_list_down = Some (lit "Failed: 500")
  /\ listSection (fst (mount backend_list_down)) = ShowNoReviews
  /\ error (fst (mount backend_list_down)) = lit "Failed: 500"
  /\ items (fst (mount backend_list_down)) = JArray [].
Proof.
  split; [reflexivity | ].
  exact (X17_failed_first_load backend_list_down (lit "Failed: 500")
                               eq_refl).
Defined.

(* ================================================================== *)
(** * Numbers written in decimal *)
(* ================================================================== *)

Lemma lit_string_of_uint (d : Decimal.uint) :
  lit (NilEmpty.string_of_uint d) = digit_text d.
Proof.
  unfold lit, digit_text. induction d; simpl; try rewrite IHd; reflexivity.
Qed.

Lemma digits_digit_text (d : Decimal.uint) :
  digits 10 (digit_text d) = (digit_values d, []).
Proof.
  unfold digit_text. induction d; simpl; try reflexivity;
    unfold digit_of; simpl; rewrite IHd; reflexivity.
Qed.

Lemma fold_digits_acc (d : Decimal.uint) (acc : positive) :
  fold_left (fun a k => a * 10 + k)%N (digit_values d) (Npos acc) =
    Npos (Pos.of_uint_acc d acc).
Proof.
  revert acc. induction d; intros acc;
    cbn [fold_left digit_values Pos.of_uint_acc];
    try reflexivity;
    match goal with
    | |- fold_left _ _ ?x = N.pos (Pos.of_uint_acc _ ?y) =>
        replace x with (Npos y) by lia
    end; apply IHd.
Qed.

Lemma digits_value_of_uint (d : Decimal.uint) :
  digits_value 10 (digit_values d) = N.of_uint d.
Proof.
  unfold digits_value, N.of_uint.
  induction d; cbn [fold_left digit_values Pos.of_uint];
    try reflexivity; try exact IHd;
    match goal with
    | |- fold_left _ _ ?x = N.pos (Pos.of_uint_acc _ ?y) =>
        change x with (Npos y)
    end; apply fold_digits_acc.
Qed.

Lemma digit_text_no_space (d : Decimal.uint) :
  Forall (fun c => is_white_space c = false) (digit_text d).
Proof.
  unfold digit_text. induction d; simpl; constructor; try reflexivity;
    exact IHd.
Qed.

Lemma trim_no_space (s : jsstring) :
  Forall (fun c => is_white_space c = false) s -> trim s = s.
Proof.
  intros H. apply trim_id.
  - destruct H; [reflexivity | assumption].
  - unfold ends_with_space. apply Forall_rev in H.
    destruct H; [reflexivity | assumption].
Qed.

Lemma eqb_head (c c' : code_unit) (r r' : jsstring) :
  c <> c' -> JsString.eqb (c :: r) (c' :: r') = false.
Proof.
  intros H. unfold JsString.eqb.
  destruct (list_eq_dec N.eq_dec (c :: r) (c' :: r')) as [E | E];
    [inversion E; congruence | reflexivity].
Qed.

Lemma of_decimal_zero_exponent (m : N) :
  of_decimal false m 0 = of_Z (Z.of_N m).
Proof. destruct m; reflexivity. Qed.

Lemma unsigned_decimal_digits (d : Decimal.uint) :
  d <> Decimal.Nil ->
  unsigned_decimal false (digit_text d) = of_Z (Z.of_N (N.of_uint d)).
Proof.
  intros Hd. unfold unsigned_decimal.
  assert (Hi : JsString.eqb (digit_text d) (lit "Infinity") = false).
  { destruct d; try congruence; apply eqb_head; discriminate. }
  rewrite Hi, digits_digit_text. cbn [exponent_part].
  rewrite List.app_nil_r, digits_value_of_uint.
  cbn [List.length Z.of_nat]. rewrite Z.sub_0_r.
  destruct (digit_values d) eqn:E.
  - destruct d; try congruence; discriminate.
  - apply of_decimal_zero_exponent.
Qed.

Lemma non_decimal_digits (d : Decimal.uint) :
  non_decimal (digit_text d) = None.
Proof.
  destruct d as [ | l | l | l | l | l | l | l | l | l | l];
    try reflexivity;
    destruct l; reflexivity.
Qed.

Lemma StringToNumber_digits (d : Decimal.uint) :
  d <> Decimal.Nil ->
  StringToNumber (digit_text d) = of_Z (Z.of_N (N.of_uint d)).
Proof.
  intros Hd. unfold StringToNumber.
  rewrite (trim_no_space _ (digit_text_no_space d)).
  pose proof (non_decimal_digits d) as Hn.
  pose proof (unsigned_decimal_digits d Hd) as Hu.
  destruct (digit_text d) as [ | c r] eqn:E.
  - destruct d; try congruence; discriminate.
  - rewrite Hn.
    assert (Hc : (c =? 43)%N = false /\ (c =? 45)%N = false).
    { destruct d; try congruence; inversion E; split; reflexivity. }
    destruct Hc as [H1 H2]. rewrite H1, H2. exact Hu.
Qed.

Lemma to_uint_not_nil (n : N) : N.to_uint n <> Decimal.Nil.
Proof.
  destruct n; [discriminate | ]. simpl.
  intros E. pose proof (DecimalPos.Unsigned.of_to p) as H.
  rewrite E in H. discriminate.
Qed.

Lemma status_to_string_digits (n : N) :
  status_to_string n = digit_text (N.to_uint n).
Proof.
  unfold status_to_string. rewrite <- lit_string_of_uint.
  f_equal. unfold NilZero.string_of_uint.
  destruct (N.to_uint n) eqn:E; try reflexivity.
  exfalso. exact (to_uint_not_nil n E).
Qed.

(** X18. Reading undoes writing: a rating field that holds a natural
    number written in decimal, as a template literal writes a status code,
    converts to the Number of that natural number. The numbers 0 to 10
    written so pass the rating check. *)
Theorem X18_decimal_text_round_trip (n : N) :
  Number (FString (status_to_string n)) = of_Z (Z.of_N n)
  /\ ((n <= 10)%N ->
      rating_rejected (Number (FString (status_to_string n))) = false).
Proof.
  assert (E : Number (FString (status_to_string n)) = of_Z (Z.of_N n)).
  { cbn [Number]. rewrite status_to_string_digits.
    rewrite (StringToNumber_digits _ (to_uint_not_nil n)).
    rewrite DecimalN.Unsigned.of_to. reflexivity. }
  split; [exact E | ].
  intros Hn. rewrite E.
  assert (Hc : In n [0; 1; 2; 3; 4; 5; 6; 7; 8; 9; 10]%N).
  { destruct n as [ | p]; [left; reflexivity | ].
    do 10 (destruct p as [p | p | ]; try lia; simpl; auto 12). }
  simpl in Hc.
  repeat (destruct Hc as [<- | Hc]; [reflexivity | ]). destruct Hc.
Qed.

Lemma X18_decimal_text_round_trip_witness :
  (8 <= 10)%N
  /\ rating_rejected (Number (FString (status_to_string 8))) = false.
Proof.
  assert (H : (8 <= 10)%N) by lia.
  split; [exact H | ].
  exact (proj2 (X18_decimal_text_round_trip 8) H).
Defined.

(** X19. A load stores whatever JSON value a 2xx GET holds. When that
    value is not a list, the list area throws at render ([items.map] is not
    a function, or [items] is [null]), except for the empty string and for
    an object whose [length] is the number 0, which show as no reviews. *)
Theorem X19_body_that_is_not_a_list (env : Env) (st : State) (v : json) :
  loaded_list env = Some v ->
  items (fst (load env st)) = v
  /\ (v = JNull \/ (exists b, v = JBool b) \/ (exists n, v = JNumber n)
      \/ (exists c s, v = JString (c :: s))
      \/ (exists props,
             v = JObject props /\ lookup (lit "length") props = None) ->
      listSection (fst (load env st)) = RenderThrows)
  /\ (v = JString []
      \/ (exists props s,
             v = JObject props
             /\ lookup (lit "length") props = Some (JNumber (S754_zero s))) ->
      listSection (fst (load env st)) = ShowNoReviews).
Proof.
  intros Hl. rewrite (loaded_list_some env st v Hl).
  unfold listSection. cbn [settled loading items].
  split; [reflexivity | split].
  - intros [-> | [[b ->] | [[n ->] | [[c [s ->]] | [props [-> E]]]]]];
      try reflexivity.
    rewrite E. reflexivity.
  - intros [-> | [props [s [-> E]]]]; [reflexivity | ].
    rewrite E. reflexivity.
Qed.

Lemma X19_body_that_is_not_a_list_witness :
  loaded_list (backend (Rejected (Error []))
                       (responds 200
                          (inr (JObject [(lit "reviews", JArray [])])))) =
    Some (JObject [(lit "reviews", JArray [])])
  /\ listSection
       (fst (load (backend (Rejected (Error []))
                           (responds 200
                              (inr (JObject [(lit "reviews", JArray [])]))))
                  initial_state)) = RenderThrows.
Proof.
  split; [reflexivity | ].
  apply (X19_body_that_is_not_a_list
           (backend (Rejected (Error []))
                    (responds 200
                       (inr (JObject [(lit "reviews", JArray [])]))))
           initial_state (JObject [(lit "reviews", JArray [])]) eq_refl).
  right. right. right. right.
  exists [(lit "reviews", JArray [])]. split; reflexivity.
Defined.
